(** * Termination conditions of [autogen_agentchat.conditions._terminations]

    A shallow embedding of the eleven termination-condition classes of
    [_terminations.py] and the properties of their shared protocol:
    one-shot evaluation, reset, configuration round trip, and the
    behaviour of the accumulating and externally driven predicates.

    Conventions.  A Python object is a record of its attributes; a method
    that mutates [self] returns the new record.  [__call__] returns the
    new object together with an [outcome], which is either the returned
    value or the exception raised.  Python [int] is [Z]; Python [float]
    is the IEEE-754 binary64 type [float] of the kernel; [str] is
    [string].  The reading of [time.monotonic()] is an explicit argument
    of the operations that consult the clock. *)

From Stdlib Require Import ZArith List String Ascii Bool Floats DecimalString Lia.
Import ListNotations.

Local Open Scope string_scope.
Local Open Scope Z_scope.

(** ** Python primitives used by the module *)

(** [str(n)] for an [int], as interpolated by an f-string. *)
Definition str_int (n : Z) : string := NilEmpty.string_of_int (Z.to_int n).

(** [needle in haystack] on two [str]. *)
Definition str_contains (needle haystack : string) : bool :=
  match index 0 needle haystack with
  | Some _ => true
  | None => false
  end.

(** [x in xs] on a sequence of [str]. *)
Definition str_in (x : string) (xs : list string) : bool :=
  existsb (String.eqb x) xs.

(** [a >= b] on two [float]. *)
Definition float_ge (a b : float) : bool := PrimFloat.leb b a.

(** A [for] loop whose body either executes [return v] ([Some v]) or
    falls through to the next iteration ([None]); [None] at the end
    means the loop ran to completion. *)
Fixpoint for_return {A R : Type} (body : A -> option R) (xs : list A) : option R :=
  match xs with
  | [] => None
  | x :: rest =>
      match body x with
      | Some v => Some v
      | None => for_return body rest
      end
  end.

(** ** Messages *)

(** Modelled from the spec: the message classes imported from
    [..messages] and the usage record of [autogen_core] are not part of
    this module.  A message is an immutable record with a [source], a
    kind discriminator, a textual rendering ([to_text()]) and an optional
    usage record [{prompt_tokens, completion_tokens}]. *)
Record RequestUsage := {
  prompt_tokens : Z;
  completion_tokens : Z
}.

(** Modelled from the spec: one execution entry of a tool-execution
    result; only its [name] is read here. *)
Record FunctionExecutionResult := {
  name : string
}.

(** Modelled from the spec: the kinds of message the conditions
    discriminate with [isinstance].  [TextMessage], [StopMessage] and
    [HandoffMessage] are chat messages ([BaseChatMessage]);
    [ToolCallExecutionEvent] is an agent event ([BaseAgentEvent]); the
    two remaining constructors stand for every other chat message and
    every other agent event. *)
Inductive MessageKind :=
| TextMessage
| StopMessage
| HandoffMessage (target : string)
| OtherChatMessage
| ToolCallExecutionEvent (content : list FunctionExecutionResult)
| OtherAgentEvent.

Record Message := {
  source : string;
  kind : MessageKind;
  to_text : string;
  models_usage : option RequestUsage
}.

(** [isinstance(m, BaseChatMessage)] *)
Definition is_BaseChatMessage (m : Message) : bool :=
  match kind m with
  | TextMessage | StopMessage | HandoffMessage _ | OtherChatMessage => true
  | ToolCallExecutionEvent _ | OtherAgentEvent => false
  end.

Definition is_StopMessage (m : Message) : bool :=
  match kind m with StopMessage => true | _ => false end.

Definition is_TextMessage (m : Message) : bool :=
  match kind m with TextMessage => true | _ => false end.

(** The stop directive: the [StopMessage(content=..., source=...)] a
    condition returns when it fires. *)
Module Stop.
Record t := { content : string; source : string }.
End Stop.

(** ** Exceptions and outcomes *)

Inductive exn :=
| TerminatedException (msg : string)
| ValueError (msg : string)
| AttributeError (msg : string)
| UserException (msg : string).

Inductive outcome :=
| Return (r : option Stop.t)
| Raise (e : exn).

Definition already_reached : exn :=
  TerminatedException "Termination condition has already been reached".

(** ** The condition classes

    One module per class; [t] is the object, the other names are the
    methods of the class. *)

Module StopMessageTermination.
Record t := { _terminated : bool }.

Definition __init__ : t := {| _terminated := false |}.

Definition terminated (self : t) : bool := _terminated self.

Definition body (message : Message) : option Stop.t :=
  if is_StopMessage message
  then Some {| Stop.content := "Stop message received";
               Stop.source := "StopMessageTermination" |}
  else None.

Definition __call__ (self : t) (messages : list Message) : t * outcome :=
  if _terminated self then (self, Raise already_reached)
  else match for_return body messages with
       | Some stop => ({| _terminated := true |}, Return (Some stop))
       | None => (self, Return None)
       end.

Definition reset (self : t) : t := {| _terminated := false |}.

Definition _to_config (self : t) : unit := tt.
Definition _from_config (config : unit) : t := __init__.
End StopMessageTermination.

Module MaxMessageTermination.
Record t := {
  _max_messages : Z;
  _message_count : Z;
  _include_agent_event : bool
}.

Record Config := { max_messages : Z; include_agent_event : bool }.

Definition __init__ (max_messages : Z) (include_agent_event : bool) : t :=
  {| _max_messages := max_messages;
     _message_count := 0;
     _include_agent_event := include_agent_event |}.

Definition terminated (self : t) : bool :=
  _message_count self >=? _max_messages self.

Definition with_count (self : t) (n : Z) : t :=
  {| _max_messages := _max_messages self;
     _message_count := n;
     _include_agent_event := _include_agent_event self |}.

Definition __call__ (self : t) (messages : list Message) : t * outcome :=
  if terminated self then (self, Raise already_reached)
  else
    let counted :=
      filter (fun m => _include_agent_event self || is_BaseChatMessage m) messages in
    let self := with_count self (_message_count self + Z.of_nat (List.length counted)) in
    if _message_count self >=? _max_messages self
    then (self,
          Return (Some
            {| Stop.content :=
                 "Maximum number of messages " ++ str_int (_max_messages self)
                 ++ " reached, current message count: "
                 ++ str_int (_message_count self);
               Stop.source := "MaxMessageTermination" |}))
    else (self, Return None).

Definition reset (self : t) : t := with_count self 0.

Definition _to_config (self : t) : Config :=
  {| max_messages := _max_messages self;
     include_agent_event := _include_agent_event self |}.

Definition _from_config (config : Config) : t :=
  __init__ (max_messages config) (include_agent_event config).
End MaxMessageTermination.

Module TextMentionTermination.
Record t := {
  _termination_text : string;
  _terminated : bool;
  _sources : option (list string)
}.

Record Config := { text : string }.

Definition __init__ (text : string) (sources : option (list string)) : t :=
  {| _termination_text := text; _terminated := false; _sources := sources |}.

Definition terminated (self : t) : bool := _terminated self.

Definition with_terminated (self : t) (b : bool) : t :=
  {| _termination_text := _termination_text self;
     _terminated := b;
     _sources := _sources self |}.

(** [self._sources is not None and message.source not in self._sources] *)
Definition skipped (self : t) (message : Message) : bool :=
  match _sources self with
  | Some sources => negb (str_in (source message) sources)
  | None => false
  end.

Definition body (self : t) (message : Message) : option Stop.t :=
  if skipped self message then None
  else
    let content := to_text message in
    if str_contains (_termination_text self) content
    then Some {| Stop.content := "Text '" ++ _termination_text self ++ "' mentioned";
                 Stop.source := "TextMentionTermination" |}
    else None.

Definition __call__ (self : t) (messages : list Message) : t * outcome :=
  if _terminated self then (self, Raise already_reached)
  else match for_return (body self) messages with
       | Some stop => (with_terminated self true, Return (Some stop))
       | None => (self, Return None)
       end.

Definition reset (self : t) : t := with_terminated self false.

Definition _to_config (self : t) : Config :=
  {| text := _termination_text self |}.

(** [cls(text=config.text)]: [sources] takes its default, [None]. *)
Definition _from_config (config : Config) : t :=
  __init__ (text config) None.
End TextMentionTermination.

(** What calling the user's function of a [FunctionalTermination] does:
    it returns a value that is the object [True] or is not, or it
    raises. *)
Inductive func_result :=
| Returns (is_True : bool)
| Throws (e : exn).

Module FunctionalTermination.
Record t := {
  _func : list Message -> func_result;
  _terminated : bool
}.

Definition __init__ (func : list Message -> func_result) : t :=
  {| _func := func; _terminated := false |}.

Definition terminated (self : t) : bool := _terminated self.

Definition with_terminated (self : t) (b : bool) : t :=
  {| _func := _func self; _terminated := b |}.

Definition __call__ (self : t) (messages : list Message) : t * outcome :=
  if _terminated self then (self, Raise already_reached)
  else match _func self messages with
       | Throws e => (self, Raise e)
       | Returns true =>
           (with_terminated self true,
            Return (Some {| Stop.content := "Functional termination condition met";
                            Stop.source := "FunctionalTermination" |}))
       | Returns false => (self, Return None)
       end.

Definition reset (self : t) : t := with_terminated self false.
End FunctionalTermination.

(** A constructor either builds the object or raises. *)
Inductive result (A : Type) :=
| Ok (a : A)
| Err (e : exn).
Arguments Ok {A} a.
Arguments Err {A} e.

Module TokenUsageTermination.
Record t := {
  _max_total_token : option Z;
  _max_prompt_token : option Z;
  _max_completion_token : option Z;
  _total_token_count : Z;
  _prompt_token_count : Z;
  _completion_token_count : Z
}.

Record Config := {
  max_total_token : option Z;
  max_prompt_token : option Z;
  max_completion_token : option Z
}.

Definition __init__ (max_total_token max_prompt_token max_completion_token : option Z)
  : result t :=
  match max_total_token, max_prompt_token, max_completion_token with
  | None, None, None =>
      Err (ValueError
        "At least one of max_total_token, max_prompt_token, or max_completion_token must be provided")
  | _, _, _ =>
      Ok {| _max_total_token := max_total_token;
            _max_prompt_token := max_prompt_token;
            _max_completion_token := max_completion_token;
            _total_token_count := 0;
            _prompt_token_count := 0;
            _completion_token_count := 0 |}
  end.

(** [limit is not None and count >= limit] *)
Definition reached (limit : option Z) (count : Z) : bool :=
  match limit with
  | Some m => count >=? m
  | None => false
  end.

Definition terminated (self : t) : bool :=
  reached (_max_total_token self) (_total_token_count self)
  || reached (_max_prompt_token self) (_prompt_token_count self)
  || reached (_max_completion_token self) (_completion_token_count self).

Definition with_counts (self : t) (total prompt completion : Z) : t :=
  {| _max_total_token := _max_total_token self;
     _max_prompt_token := _max_prompt_token self;
     _max_completion_token := _max_completion_token self;
     _total_token_count := total;
     _prompt_token_count := prompt;
     _completion_token_count := completion |}.

(** One iteration of the loop over the batch. *)
Definition add_usage (self : t) (message : Message) : t :=
  match models_usage message with
  | Some usage =>
      with_counts self
        (_total_token_count self + (prompt_tokens usage + completion_tokens usage))
        (_prompt_token_count self + prompt_tokens usage)
        (_completion_token_count self + completion_tokens usage)
  | None => self
  end.

Definition __call__ (self : t) (messages : list Message) : t * outcome :=
  if terminated self then (self, Raise already_reached)
  else
    let self := fold_left add_usage messages self in
    if terminated self
    then (self,
          Return (Some
            {| Stop.content :=
                 "Token usage limit reached, total token count: "
                 ++ str_int (_total_token_count self)
                 ++ ", prompt token count: " ++ str_int (_prompt_token_count self)
                 ++ ", completion token count: "
                 ++ str_int (_completion_token_count self) ++ ".";
               Stop.source := "TokenUsageTermination" |}))
    else (self, Return None).

Definition reset (self : t) : t := with_counts self 0 0 0.

Definition _to_config (self : t) : Config :=
  {| max_total_token := _max_total_token self;
     max_prompt_token := _max_prompt_token self;
     max_completion_token := _max_completion_token self |}.

Definition _from_config (config : Config) : result t :=
  __init__ (max_total_token config) (max_prompt_token config)
           (max_completion_token config).
End TokenUsageTermination.

Module HandoffTermination.
Record t := { _terminated : bool; _target : string }.

Record Config := { target : string }.

Definition __init__ (target : string) : t :=
  {| _terminated := false; _target := target |}.

Definition terminated (self : t) : bool := _terminated self.

Definition with_terminated (self : t) (b : bool) : t :=
  {| _terminated := b; _target := _target self |}.

Definition body (self : t) (message : Message) : option Stop.t :=
  match kind message with
  | HandoffMessage target =>
      if String.eqb target (_target self)
      then Some {| Stop.content :=
                     "Handoff to " ++ _target self ++ " from " ++ source message
                     ++ " detected.";
                   Stop.source := "HandoffTermination" |}
      else None
  | _ => None
  end.

Definition __call__ (self : t) (messages : list Message) : t * outcome :=
  if _terminated self then (self, Raise already_reached)
  else match for_return (body self) messages with
       | Some stop => (with_terminated self true, Return (Some stop))
       | None => (self, Return None)
       end.

Definition reset (self : t) : t := with_terminated self false.

Definition _to_config (self : t) : Config := {| target := _target self |}.
Definition _from_config (config : Config) : t := __init__ (target config).
End HandoffTermination.

(** [timeout_seconds] is modelled at its annotated type, [float].  Python
    also admits an [int] there, which the object keeps as it is while
    the configuration class turns it into a [float]; such an argument
    is outside this model, and no round-trip statement below is made
    about [TimeoutTermination]. *)
Module TimeoutTermination.
Record t := {
  _timeout_seconds : float;
  _start_time : float;
  _terminated : bool
}.

Record Config := { timeout_seconds : float }.

(** [now] is the value of [time.monotonic()]. *)
Definition __init__ (now : float) (timeout_seconds : float) : t :=
  {| _timeout_seconds := timeout_seconds;
     _start_time := now;
     _terminated := false |}.

Definition terminated (self : t) : bool := _terminated self.

(** [str_float] is [str] on a [float], as the f-string applies it. *)
Definition __call__ (str_float : float -> string) (now : float)
    (self : t) (messages : list Message) : t * outcome :=
  if _terminated self then (self, Raise already_reached)
  else
    if float_ge (PrimFloat.sub now (_start_time self)) (_timeout_seconds self)
    then ({| _timeout_seconds := _timeout_seconds self;
             _start_time := _start_time self;
             _terminated := true |},
          Return (Some
            {| Stop.content :=
                 "Timeout of " ++ str_float (_timeout_seconds self)
                 ++ " seconds reached";
               Stop.source := "TimeoutTermination" |}))
    else (self, Return None).

Definition reset (now : float) (self : t) : t :=
  {| _timeout_seconds := _timeout_seconds self;
     _start_time := now;
     _terminated := false |}.

Definition _to_config (self : t) : Config :=
  {| timeout_seconds := _timeout_seconds self |}.

Definition _from_config (now : float) (config : Config) : t :=
  __init__ now (timeout_seconds config).
End TimeoutTermination.

Module ExternalTermination.
Record t := { _terminated : bool; _setted : bool }.

Definition __init__ : t := {| _terminated := false; _setted := false |}.

Definition terminated (self : t) : bool := _terminated self.

Definition set (self : t) : t :=
  {| _terminated := _terminated self; _setted := true |}.

Definition __call__ (self : t) (messages : list Message) : t * outcome :=
  if _terminated self then (self, Raise already_reached)
  else
    if _setted self
    then ({| _terminated := true; _setted := _setted self |},
          Return (Some {| Stop.content := "External termination requested";
                          Stop.source := "ExternalTermination" |}))
    else (self, Return None).

Definition reset (self : t) : t := {| _terminated := false; _setted := false |}.

Definition _to_config (self : t) : unit := tt.
Definition _from_config (config : unit) : t := __init__.
End ExternalTermination.

Module SourceMatchTermination.
Record t := { _sources : list string; _terminated : bool }.

Record Config := { sources : list string }.

Definition __init__ (sources : list string) : t :=
  {| _sources := sources; _terminated := false |}.

Definition terminated (self : t) : bool := _terminated self.

Definition with_terminated (self : t) (b : bool) : t :=
  {| _sources := _sources self; _terminated := b |}.

Definition body (self : t) (message : Message) : option Stop.t :=
  if str_in (source message) (_sources self)
  then Some {| Stop.content := "'" ++ source message ++ "' answered";
               Stop.source := "SourceMatchTermination" |}
  else None.

Definition __call__ (self : t) (messages : list Message) : t * outcome :=
  if _terminated self then (self, Raise already_reached)
  else
    match messages with
    | [] => (self, Return None)
    | _ :: _ =>
        match for_return (body self) messages with
        | Some stop => (with_terminated self true, Return (Some stop))
        | None => (self, Return None)
        end
    end.

Definition reset (self : t) : t := with_terminated self false.

Definition _to_config (self : t) : Config := {| sources := _sources self |}.
Definition _from_config (config : Config) : t := __init__ (sources config).
End SourceMatchTermination.

Module TextMessageTermination.
Record t := { _terminated : bool; _source : option string }.

Definition __init__ (source : option string) : t :=
  {| _terminated := false; _source := source |}.

Definition terminated (self : t) : bool := _terminated self.

Definition with_terminated (self : t) (b : bool) : t :=
  {| _terminated := b; _source := _source self |}.

(** [self._source is None or message.source == self._source] *)
Definition source_ok (self : t) (message : Message) : bool :=
  match _source self with
  | None => true
  | Some s => String.eqb (source message) s
  end.

Definition body (self : t) (message : Message) : option Stop.t :=
  if is_TextMessage message && source_ok self message
  then Some {| Stop.content :=
                 "Text message received from '" ++ source message ++ "'";
               Stop.source := "TextMessageTermination" |}
  else None.

Definition __call__ (self : t) (messages : list Message) : t * outcome :=
  if _terminated self then (self, Raise already_reached)
  else match for_return (body self) messages with
       | Some stop => (with_terminated self true, Return (Some stop))
       | None => (self, Return None)
       end.

Definition reset (self : t) : t := with_terminated self false.

Record Config := { source : option string }.

Definition _to_config (self : t) : Config := {| source := _source self |}.
Definition _from_config (config : Config) : t := __init__ (source config).
End TextMessageTermination.

Module FunctionCallTermination.
Record t := { _terminated : bool; _function_name : string }.

Record Config := { function_name : string }.

Definition __init__ (function_name : string) : t :=
  {| _terminated := false; _function_name := function_name |}.

Definition terminated (self : t) : bool := _terminated self.

Definition with_terminated (self : t) (b : bool) : t :=
  {| _terminated := b; _function_name := _function_name self |}.

(** The inner loop over [message.content]. *)
Definition inner (self : t) (execution : FunctionExecutionResult) : option Stop.t :=
  if String.eqb (name execution) (_function_name self)
  then Some {| Stop.content :=
                 "Function '" ++ _function_name self ++ "' was executed.";
               Stop.source := "FunctionCallTermination" |}
  else None.

Definition body (self : t) (message : Message) : option Stop.t :=
  match kind message with
  | ToolCallExecutionEvent content => for_return (inner self) content
  | _ => None
  end.

Definition __call__ (self : t) (messages : list Message) : t * outcome :=
  if _terminated self then (self, Raise already_reached)
  else match for_return (body self) messages with
       | Some stop => (with_terminated self true, Return (Some stop))
       | None => (self, Return None)
       end.

Definition reset (self : t) : t := with_terminated self false.

Definition _to_config (self : t) : Config :=
  {| function_name := _function_name self |}.
Definition _from_config (config : Config) : t := __init__ (function_name config).
End FunctionCallTermination.

(** ** The protocol, uniformly over the eleven classes *)

(** A termination condition: an object of one of the classes. *)
Inductive condition :=
| CStopMessage (o : StopMessageTermination.t)
| CMaxMessage (o : MaxMessageTermination.t)
| CTextMention (o : TextMentionTermination.t)
| CFunctional (o : FunctionalTermination.t)
| CTokenUsage (o : TokenUsageTermination.t)
| CHandoff (o : HandoffTermination.t)
| CTimeout (o : TimeoutTermination.t)
| CExternal (o : ExternalTermination.t)
| CSourceMatch (o : SourceMatchTermination.t)
| CTextMessage (o : TextMessageTermination.t)
| CFunctionCall (o : FunctionCallTermination.t).

(** The arguments of a constructor call, one form per class. *)
Inductive ctor :=
| NewStopMessage
| NewMaxMessage (max_messages : Z) (include_agent_event : bool)
| NewTextMention (text : string) (sources : option (list string))
| NewFunctional (func : list Message -> func_result)
| NewTokenUsage (max_total_token max_prompt_token max_completion_token : option Z)
| NewHandoff (target : string)
| NewTimeout (timeout_seconds : float)
| NewExternal
| NewSourceMatch (sources : list string)
| NewTextMessage (source : option string)
| NewFunctionCall (function_name : string).

(** The serialized parameters of a component.  [FunctionalTermination]
    is not a [Component] and has none. *)
Inductive config :=
| StopMessageTerminationConfig
| MaxMessageTerminationConfig (c : MaxMessageTermination.Config)
| TextMentionTerminationConfig (c : TextMentionTermination.Config)
| TokenUsageTerminationConfig (c : TokenUsageTermination.Config)
| HandoffTerminationConfig (c : HandoffTermination.Config)
| TimeoutTerminationConfig (c : TimeoutTermination.Config)
| ExternalTerminationConfig
| SourceMatchTerminationConfig (c : SourceMatchTermination.Config)
| TextMessageTerminationConfig (c : TextMessageTermination.Config)
| FunctionCallTerminationConfig (c : FunctionCallTermination.Config).

Definition result_map {A B : Type} (f : A -> B) (r : result A) : result B :=
  match r with
  | Ok a => Ok (f a)
  | Err e => Err e
  end.

Definition construct (now : float) (args : ctor) : result condition :=
  match args with
  | NewStopMessage => Ok (CStopMessage StopMessageTermination.__init__)
  | NewMaxMessage m i => Ok (CMaxMessage (MaxMessageTermination.__init__ m i))
  | NewTextMention t s => Ok (CTextMention (TextMentionTermination.__init__ t s))
  | NewFunctional f => Ok (CFunctional (FunctionalTermination.__init__ f))
  | NewTokenUsage t p c => result_map CTokenUsage (TokenUsageTermination.__init__ t p c)
  | NewHandoff t => Ok (CHandoff (HandoffTermination.__init__ t))
  | NewTimeout s => Ok (CTimeout (TimeoutTermination.__init__ now s))
  | NewExternal => Ok (CExternal ExternalTermination.__init__)
  | NewSourceMatch s => Ok (CSourceMatch (SourceMatchTermination.__init__ s))
  | NewTextMessage s => Ok (CTextMessage (TextMessageTermination.__init__ s))
  | NewFunctionCall f => Ok (CFunctionCall (FunctionCallTermination.__init__ f))
  end.

Definition terminated (c : condition) : bool :=
  match c with
  | CStopMessage o => StopMessageTermination.terminated o
  | CMaxMessage o => MaxMessageTermination.terminated o
  | CTextMention o => TextMentionTermination.terminated o
  | CFunctional o => FunctionalTermination.terminated o
  | CTokenUsage o => TokenUsageTermination.terminated o
  | CHandoff o => HandoffTermination.terminated o
  | CTimeout o => TimeoutTermination.terminated o
  | CExternal o => ExternalTermination.terminated o
  | CSourceMatch o => SourceMatchTermination.terminated o
  | CTextMessage o => TextMessageTermination.terminated o
  | CFunctionCall o => FunctionCallTermination.terminated o
  end.

Definition reset (now : float) (c : condition) : condition :=
  match c with
  | CStopMessage o => CStopMessage (StopMessageTermination.reset o)
  | CMaxMessage o => CMaxMessage (MaxMessageTermination.reset o)
  | CTextMention o => CTextMention (TextMentionTermination.reset o)
  | CFunctional o => CFunctional (FunctionalTermination.reset o)
  | CTokenUsage o => CTokenUsage (TokenUsageTermination.reset o)
  | CHandoff o => CHandoff (HandoffTermination.reset o)
  | CTimeout o => CTimeout (TimeoutTermination.reset now o)
  | CExternal o => CExternal (ExternalTermination.reset o)
  | CSourceMatch o => CSourceMatch (SourceMatchTermination.reset o)
  | CTextMessage o => CTextMessage (TextMessageTermination.reset o)
  | CFunctionCall o => CFunctionCall (FunctionCallTermination.reset o)
  end.

(** [serialize]: the [_to_config] of the object's class. *)
Definition _to_config (c : condition) : option config :=
  match c with
  | CStopMessage o => Some StopMessageTerminationConfig
  | CMaxMessage o => Some (MaxMessageTerminationConfig (MaxMessageTermination._to_config o))
  | CTextMention o => Some (TextMentionTerminationConfig (TextMentionTermination._to_config o))
  | CFunctional o => None
  | CTokenUsage o => Some (TokenUsageTerminationConfig (TokenUsageTermination._to_config o))
  | CHandoff o => Some (HandoffTerminationConfig (HandoffTermination._to_config o))
  | CTimeout o => Some (TimeoutTerminationConfig (TimeoutTermination._to_config o))
  | CExternal o => Some ExternalTerminationConfig
  | CSourceMatch o => Some (SourceMatchTerminationConfig (SourceMatchTermination._to_config o))
  | CTextMessage o => Some (TextMessageTerminationConfig (TextMessageTermination._to_config o))
  | CFunctionCall o => Some (FunctionCallTerminationConfig (FunctionCallTermination._to_config o))
  end.

(** [deserialize]: the [_from_config] of the class the parameters name. *)
Definition _from_config (now : float) (cfg : config) : result condition :=
  match cfg with
  | StopMessageTerminationConfig => Ok (CStopMessage (StopMessageTermination._from_config tt))
  | MaxMessageTerminationConfig c => Ok (CMaxMessage (MaxMessageTermination._from_config c))
  | TextMentionTerminationConfig c => Ok (CTextMention (TextMentionTermination._from_config c))
  | TokenUsageTerminationConfig c => result_map CTokenUsage (TokenUsageTermination._from_config c)
  | HandoffTerminationConfig c => Ok (CHandoff (HandoffTermination._from_config c))
  | TimeoutTerminationConfig c => Ok (CTimeout (TimeoutTermination._from_config now c))
  | ExternalTerminationConfig => Ok (CExternal (ExternalTermination._from_config tt))
  | SourceMatchTerminationConfig c => Ok (CSourceMatch (SourceMatchTermination._from_config c))
  | TextMessageTerminationConfig c => Ok (CTextMessage (TextMessageTermination._from_config c))
  | FunctionCallTerminationConfig c => Ok (CFunctionCall (FunctionCallTermination._from_config c))
  end.

(** The name of the object's class, which its stop directives carry as
    [source]. *)
Definition class_name (c : condition) : string :=
  match c with
  | CStopMessage _ => "StopMessageTermination"
  | CMaxMessage _ => "MaxMessageTermination"
  | CTextMention _ => "TextMentionTermination"
  | CFunctional _ => "FunctionalTermination"
  | CTokenUsage _ => "TokenUsageTermination"
  | CHandoff _ => "HandoffTermination"
  | CTimeout _ => "TimeoutTermination"
  | CExternal _ => "ExternalTermination"
  | CSourceMatch _ => "SourceMatchTermination"
  | CTextMessage _ => "TextMessageTermination"
  | CFunctionCall _ => "FunctionCallTermination"
  end.

(** [set()] exists on [ExternalTermination] only; on an object of any
    other class the attribute lookup fails. *)
Definition set (c : condition) : result condition :=
  match c with
  | CExternal o => Ok (CExternal (ExternalTermination.set o))
  | _ => Err (AttributeError ("'" ++ class_name c ++ "' object has no attribute 'set'"))
  end.

Definition on_fst {A B C : Type} (f : A -> B) (p : A * C) : B * C :=
  (f (fst p), snd p).

(** ** Example messages *)

Definition text_message (src txt : string) : Message :=
  {| source := src; kind := TextMessage; to_text := txt; models_usage := None |}.

Definition usage_message (src : string) (prompt completion : Z) : Message :=
  {| source := src; kind := TextMessage; to_text := "ok";
     models_usage := Some {| prompt_tokens := prompt; completion_tokens := completion |} |}.

(** A rendering of floats for the examples, none of which fires a
    timeout. *)
Definition example_str_float (x : float) : string := "60.0".

Definition stop_message (src : string) : Message :=
  {| source := src; kind := StopMessage; to_text := "stop"; models_usage := None |}.

Section Protocol.

(** [str] on a [float], as the f-string of [TimeoutTermination]
    applies it to [timeout_seconds]. *)
Variable str_float : float -> string.

(** [evaluate]: the [__call__] of the object's class. *)
Definition call (now : float) (c : condition) (messages : list Message)
  : condition * outcome :=
  match c with
  | CStopMessage o => on_fst CStopMessage (StopMessageTermination.__call__ o messages)
  | CMaxMessage o => on_fst CMaxMessage (MaxMessageTermination.__call__ o messages)
  | CTextMention o => on_fst CTextMention (TextMentionTermination.__call__ o messages)
  | CFunctional o => on_fst CFunctional (FunctionalTermination.__call__ o messages)
  | CTokenUsage o => on_fst CTokenUsage (TokenUsageTermination.__call__ o messages)
  | CHandoff o => on_fst CHandoff (HandoffTermination.__call__ o messages)
  | CTimeout o => on_fst CTimeout (TimeoutTermination.__call__ str_float now o messages)
  | CExternal o => on_fst CExternal (ExternalTermination.__call__ o messages)
  | CSourceMatch o => on_fst CSourceMatch (SourceMatchTermination.__call__ o messages)
  | CTextMessage o => on_fst CTextMessage (TextMessageTermination.__call__ o messages)
  | CFunctionCall o => on_fst CFunctionCall (FunctionCallTermination.__call__ o messages)
  end.

(** One operation of a caller on an instance. *)
Inductive op :=
| Evaluate (now : float) (messages : list Message)
| Reset (now : float)
| ExternalSet.

(** Runs one operation: the object afterwards and what the caller
    observes.  An operation that raises leaves the object as the
    method left it. *)
Definition step (c : condition) (o : op) : condition * outcome :=
  match o with
  | Evaluate now messages => call now c messages
  | Reset now => (reset now c, Return None)
  | ExternalSet =>
      match set c with
      | Ok c' => (c', Return None)
      | Err e => (c, Raise e)
      end
  end.

(** Runs a sequence of operations: the final object and the
    observations in order. *)
Fixpoint run (c : condition) (ops : list op) : condition * list outcome :=
  match ops with
  | [] => (c, [])
  | o :: rest =>
      let (c', out) := step c o in
      let (c'', outs) := run c' rest in
      (c'', out :: outs)
  end.

Definition is_Reset (o : op) : bool :=
  match o with Reset _ => true | _ => false end.

(** ** Vocabulary of the properties *)

(** The constructor arguments under which a condition is triggered from
    the start: a ceiling that the zeroed counter already reaches. *)
Definition nonpositive_ceiling (args : ctor) : Prop :=
  match args with
  | NewMaxMessage max_messages _ => max_messages <= 0
  | NewTokenUsage max_total max_prompt max_completion =>
      exists m, (max_total = Some m \/ max_prompt = Some m \/ max_completion = Some m)
                /\ m <= 0
  | _ => False
  end.

Definition is_ValueError (out : outcome) : bool :=
  match out with
  | Raise (ValueError _) => true
  | _ => false
  end.

Definition is_TokenUsage (c : condition) : bool :=
  match c with
  | CTokenUsage _ => true
  | _ => false
  end.

(** The number of qualifying messages of a batch: all of them when
    agent events are included, the chat messages otherwise. *)
Definition qualifying_count (include_agent_event : bool) (messages : list Message) : Z :=
  if include_agent_event
  then Z.of_nat (List.length messages)
  else Z.of_nat (List.length (filter is_BaseChatMessage messages)).

(** The stop directive of [MaxMessageTermination] for a ceiling and a
    reported count. *)
Definition max_message_stop (max_messages count : Z) : Stop.t :=
  {| Stop.content :=
       "Maximum number of messages " ++ str_int max_messages
       ++ " reached, current message count: " ++ str_int count;
     Stop.source := "MaxMessageTermination" |}.

(** The prompt and completion tokens a message contributes: those of
    its usage record, nothing when it carries none. *)
Definition prompt_of (m : Message) : Z :=
  match models_usage m with
  | Some usage => prompt_tokens usage
  | None => 0
  end.

Definition completion_of (m : Message) : Z :=
  match models_usage m with
  | Some usage => completion_tokens usage
  | None => 0
  end.

Definition sum_over (f : Message -> Z) (messages : list Message) : Z :=
  fold_right (fun m acc => f m + acc) 0 messages.

(** The object after the usage of a whole batch has been added. *)
Definition token_accumulated (o : TokenUsageTermination.t) (messages : list Message)
  : TokenUsageTermination.t :=
  TokenUsageTermination.with_counts o
    (TokenUsageTermination._total_token_count o
     + sum_over (fun m => prompt_of m + completion_of m) messages)
    (TokenUsageTermination._prompt_token_count o + sum_over prompt_of messages)
    (TokenUsageTermination._completion_token_count o + sum_over completion_of messages).

(** The stop directive of [TokenUsageTermination] for the three totals. *)
Definition token_stop (total prompt completion : Z) : Stop.t :=
  {| Stop.content :=
       "Token usage limit reached, total token count: " ++ str_int total
       ++ ", prompt token count: " ++ str_int prompt
       ++ ", completion token count: " ++ str_int completion ++ ".";
     Stop.source := "TokenUsageTermination" |}.

(** A ceiling is configured and its running total has reached it. *)
Definition ceiling_reached (limit : option Z) (count : Z) : Prop :=
  exists m, limit = Some m /\ m <= count.

(** The outcome is a returned stop directive. *)
Definition is_fired (out : outcome) : bool :=
  match out with
  | Return (Some _) => true
  | _ => false
  end.

Definition is_Evaluate (o : op) : bool :=
  match o with Evaluate _ _ => true | _ => false end.

Definition external_stop : Stop.t :=
  {| Stop.content := "External termination requested";
     Stop.source := "ExternalTermination" |}.

(** An [ExternalTermination] on which [set()] has been called and no
    evaluation has fired since. *)
Definition armed : condition :=
  CExternal {| ExternalTermination._terminated := false;
               ExternalTermination._setted := true |}.

(** An untriggered [ExternalTermination]. *)
Definition external_idle (c : condition) : Prop :=
  exists o, c = CExternal o /\ ExternalTermination._terminated o = false.

(** An [ExternalTermination] that is triggered only if its flag is set. *)
Definition external_latched (c : condition) : Prop :=
  exists o, c = CExternal o /\
            (ExternalTermination._terminated o = true ->
             ExternalTermination._setted o = true).

(** The six detectors that fire on the first qualifying message. *)
Definition stateless_trigger (c : condition) : bool :=
  match c with
  | CStopMessage _ | CTextMention _ | CHandoff _
  | CSourceMatch _ | CTextMessage _ | CFunctionCall _ => true
  | _ => false
  end.

(** When a message qualifies for a detector, following the table of the
    stateless-trigger family: a stop message; a text that contains the
    configured substring, from an allowed source when there is an
    allow-list; a handoff to the configured target; a source of the
    configured set; a plain text message, from the configured source
    when there is one; a tool-execution result with an entry of the
    configured name. *)
Definition qualifies (c : condition) (m : Message) : bool :=
  match c with
  | CStopMessage _ => is_StopMessage m
  | CTextMention o =>
      match TextMentionTermination._sources o with
      | Some allowed => str_in (source m) allowed
      | None => true
      end
      && str_contains (TextMentionTermination._termination_text o) (to_text m)
  | CHandoff o =>
      match kind m with
      | HandoffMessage target => String.eqb target (HandoffTermination._target o)
      | _ => false
      end
  | CSourceMatch o => str_in (source m) (SourceMatchTermination._sources o)
  | CTextMessage o =>
      is_TextMessage m
      && match TextMessageTermination._source o with
         | Some s => String.eqb (source m) s
         | None => true
         end
  | CFunctionCall o =>
      match kind m with
      | ToolCallExecutionEvent content =>
          existsb (fun e => String.eqb (name e) (FunctionCallTermination._function_name o))
                  content
      | _ => false
      end
  | _ => false
  end.

(** The loop body of a detector's [__call__]. *)
Definition body_of (c : condition) : Message -> option Stop.t :=
  match c with
  | CStopMessage _ => StopMessageTermination.body
  | CTextMention o => TextMentionTermination.body o
  | CHandoff o => HandoffTermination.body o
  | CSourceMatch o => SourceMatchTermination.body o
  | CTextMessage o => TextMessageTermination.body o
  | CFunctionCall o => FunctionCallTermination.body o
  | _ => fun _ => None
  end.

(** The detector with [_terminated] set. *)
Definition triggered_copy (c : condition) : condition :=
  match c with
  | CStopMessage _ => CStopMessage {| StopMessageTermination._terminated := true |}
  | CTextMention o => CTextMention (TextMentionTermination.with_terminated o true)
  | CHandoff o => CHandoff (HandoffTermination.with_terminated o true)
  | CSourceMatch o => CSourceMatch (SourceMatchTermination.with_terminated o true)
  | CTextMessage o => CTextMessage (TextMessageTermination.with_terminated o true)
  | CFunctionCall o => CFunctionCall (FunctionCallTermination.with_terminated o true)
  | _ => c
  end.

Definition is_Some {A : Type} (x : option A) : bool :=
  match x with Some _ => true | None => false end.

(** The two classes whose [terminated] is computed from counters. *)
Definition counter_based (c : condition) : bool :=
  match c with
  | CMaxMessage _ | CTokenUsage _ => true
  | _ => false
  end.

Definition is_Functional (c : condition) : bool :=
  match c with
  | CFunctional _ => true
  | _ => false
  end.

Definition is_ExternalSet (o : op) : bool :=
  match o with ExternalSet => true | _ => false end.

(** How many of the observations are returned stop directives. *)
Definition count_fired (outs : list outcome) : nat :=
  List.length (filter is_fired outs).

(** No message of the batch reports a negative token count. *)
Definition nonnegative_usage (messages : list Message) : bool :=
  forallb (fun m => (0 <=? prompt_of m) && (0 <=? completion_of m)) messages.

(** The qualifying messages of several batches together. *)
Definition qualifying_total (include_agent_event : bool) (batches : list (list Message)) : Z :=
  fold_right (fun batch acc => qualifying_count include_agent_event batch + acc) 0 batches.


(** Unfolds the [__call__] of every class, and [terminated] where it
    is the stored flag. *)
Ltac unfold_call :=
  unfold on_fst,
    StopMessageTermination.__call__, MaxMessageTermination.__call__,
    TextMentionTermination.__call__, FunctionalTermination.__call__,
    TokenUsageTermination.__call__, HandoffTermination.__call__,
    TimeoutTermination.__call__, ExternalTermination.__call__,
    SourceMatchTermination.__call__, TextMessageTermination.__call__,
    FunctionCallTermination.__call__,
    StopMessageTermination.terminated, TextMentionTermination.terminated,
    FunctionalTermination.terminated, HandoffTermination.terminated,
    TimeoutTermination.terminated, ExternalTermination.terminated,
    SourceMatchTermination.terminated, TextMessageTermination.terminated,
    FunctionCallTermination.terminated.

(** Splits on the test of a conditional or the scrutinee of a match of
    the goal. *)
Ltac branch :=
  match goal with
  | |- context [if ?b then _ else _] => destruct b eqn:?
  | |- context [match ?x with _ => _ end] => destruct x eqn:?
  end.

(** The same two steps in a hypothesis. *)
Ltac unfold_call_in H :=
  unfold on_fst,
    StopMessageTermination.__call__, MaxMessageTermination.__call__,
    TextMentionTermination.__call__, FunctionalTermination.__call__,
    TokenUsageTermination.__call__, HandoffTermination.__call__,
    TimeoutTermination.__call__, ExternalTermination.__call__,
    SourceMatchTermination.__call__, TextMessageTermination.__call__,
    FunctionCallTermination.__call__ in H.

Ltac branch_in H :=
  match type of H with
  | context [if ?b then _ else _] => destruct b eqn:?
  | context [match ?x with _ => _ end] => destruct x eqn:?
  end.

(** ** The one-shot state machine *)

(** A triggered condition refuses to be evaluated, and is left as it
    was. *)
Lemma call_terminated (now : float) (c : condition) (messages : list Message) :
  terminated c = true ->
  call now c messages = (c, Raise already_reached).
Proof.
  destruct c; cbn; unfold_call; intros H; rewrite H; reflexivity.
Qed.

(** A call that returns a stop directive leaves the condition
    triggered. *)
Lemma call_fires_terminated (now : float) (c c' : condition)
    (messages : list Message) (stop : Stop.t) :
  call now c messages = (c', Return (Some stop)) ->
  terminated c' = true.
Proof.
  destruct c; cbn; unfold_call; repeat branch;
    intros H; inversion H; subst; cbn; solve [reflexivity | assumption].
Qed.

(** Only [reset] clears [terminated]. *)
Lemma step_keeps_terminated (c : condition) (o : op) :
  is_Reset o = false ->
  terminated c = true ->
  terminated (fst (step c o)) = true.
Proof.
  destruct o as [now messages|now|]; cbn; intros Hr Ht.
  - now rewrite call_terminated.
  - discriminate Hr.
  - destruct c; cbn; exact Ht.
Qed.

Lemma run_cons (c : condition) (o : op) (ops : list op) :
  run c (o :: ops) =
    (fst (run (fst (step c o)) ops),
     snd (step c o) :: snd (run (fst (step c o)) ops)).
Proof.
  cbn [run]. destruct (step c o) as [c' out]. cbn [fst snd].
  destruct (run c' ops) as [c'' outs]. reflexivity.
Qed.

(** A property of the object that every operation preserves holds
    after any sequence of operations. *)
Lemma run_invariant (P : condition -> Prop) :
  (forall c o, P c -> P (fst (step c o))) ->
  forall ops c, P c -> P (fst (run c ops)).
Proof.
  intros Hstep. induction ops as [|o ops IH]; intros c Hc.
  - exact Hc.
  - rewrite run_cons. cbn [fst]. apply IH, Hstep, Hc.
Qed.

Lemma run_keeps_terminated (ops : list op) (c : condition) :
  existsb is_Reset ops = false ->
  terminated c = true ->
  terminated (fst (run c ops)) = true.
Proof.
  revert c. induction ops as [|o ops IH]; intros c Hr Ht.
  - exact Ht.
  - cbn [existsb] in Hr. apply orb_false_iff in Hr as [Ho Hr].
    rewrite run_cons. cbn [fst]. apply IH; [exact Hr|].
    now apply step_keeps_terminated.
Qed.

(** C2.  One-shot invariant: once an evaluation of a condition of any
    class has returned a stop directive, every later evaluation raises
    [TerminatedException], whatever the batch and the clock, and
    whatever other operations came in between, so long as none of them
    is a [reset]. *)
Theorem one_shot_until_reset
    (now : float) (c c' : condition) (batch : list Message) (stop : Stop.t) :
  call now c batch = (c', Return (Some stop)) ->
  forall ops : list op,
    existsb is_Reset ops = false ->
    forall (now' : float) (batch' : list Message),
      snd (step (fst (run c' ops)) (Evaluate now' batch')) =
        Raise (TerminatedException "Termination condition has already been reached").
Proof.
  intros Hfire ops Hops now' batch'.
  cbn [step]. rewrite call_terminated; [reflexivity|].
  apply run_keeps_terminated; [exact Hops|].
  exact (call_fires_terminated _ _ _ _ _ Hfire).
Qed.

(** ** Reset *)

(** The loop of [TokenUsageTermination.__call__] touches the running
    totals only. *)
Lemma token_fold_reset (messages : list Message) (o : TokenUsageTermination.t) :
  TokenUsageTermination.reset (fold_left TokenUsageTermination.add_usage messages o) =
  TokenUsageTermination.reset o.
Proof.
  revert o. induction messages as [|m ms IH]; intros o; [reflexivity|].
  cbn [fold_left]. rewrite IH.
  unfold TokenUsageTermination.add_usage.
  destruct (models_usage m); reflexivity.
Qed.

(** An evaluation changes nothing that [reset] does not overwrite. *)
Lemma reset_call (now now' : float) (c : condition) (messages : list Message) :
  reset now (fst (call now' c messages)) = reset now c.
Proof.
  destruct c; cbn; unfold_call; repeat branch; cbn [fst]; f_equal;
    solve [reflexivity | apply token_fold_reset].
Qed.

(** A later [reset] overwrites an earlier one. *)
Lemma reset_reset (now now' : float) (c : condition) :
  reset now (reset now' c) = reset now c.
Proof. destruct c; reflexivity. Qed.

Lemma reset_step (now : float) (c : condition) (o : op) :
  reset now (fst (step c o)) = reset now c.
Proof.
  destruct o as [now' messages|now'|]; cbn [step fst].
  - apply reset_call.
  - apply reset_reset.
  - destruct c; reflexivity.
Qed.

Lemma reset_run (now : float) (ops : list op) (c : condition) :
  reset now (fst (run c ops)) = reset now c.
Proof.
  apply (run_invariant (fun c' => reset now c' = reset now c)).
  - intros c' o H. now rewrite reset_step.
  - reflexivity.
Qed.

(** Resetting a freshly built object at clock reading [now] gives the
    object the constructor builds at [now]. *)
Lemma reset_construct (now0 now : float) (args : ctor) (c0 : condition) :
  construct now0 args = Ok c0 ->
  construct now args = Ok (reset now c0).
Proof.
  destruct args; cbn; intros H; try (injection H as <-; reflexivity).
  destruct max_total_token, max_prompt_token, max_completion_token;
    cbn in *; try discriminate H; injection H as <-; reflexivity.
Qed.

(** Whether a condition is triggered when it is built depends on the
    constructor arguments only, not on the clock. *)
Lemma construct_terminated (now1 now2 : float) (args : ctor) (c1 c2 : condition) :
  construct now1 args = Ok c1 ->
  construct now2 args = Ok c2 ->
  terminated c1 = terminated c2.
Proof.
  destruct args; cbn; intros H1 H2;
    try (injection H1 as <-; injection H2 as <-; reflexivity).
  destruct (TokenUsageTermination.__init__ _ _ _); cbn in *; [|discriminate].
  injection H1 as <-; injection H2 as <-; reflexivity.
Qed.

Lemma construct_terminated_iff (now : float) (args : ctor) (c : condition) :
  construct now args = Ok c ->
  terminated c = true <-> nonpositive_ceiling args.
Proof.
  destruct args; cbn; intros H; try (injection H as <-; cbn; intuition discriminate).
  - injection H as <-. cbn. unfold MaxMessageTermination.terminated. cbn.
    rewrite Z.geb_le. reflexivity.
  - set (lim := fun l : option Z => TokenUsageTermination.reached l 0).
    assert (Hlim : forall l, lim l = true <-> exists m, l = Some m /\ m <= 0).
    { intros [m|]; unfold lim; cbn.
      - rewrite Z.geb_le. split; [intros Hm; now exists m|].
        intros (m' & [= <-] & Hm). exact Hm.
      - split; [discriminate|]. intros (m' & Hm & _). discriminate Hm. }
    assert (Ht : terminated c = lim max_total_token || lim max_prompt_token
                                || lim max_completion_token).
    { destruct max_total_token, max_prompt_token, max_completion_token;
        cbn in H; try discriminate H; injection H as <-; reflexivity. }
    rewrite Ht, !orb_true_iff, !Hlim. clear.
    split.
    + intros [[(m & -> & Hm)|(m & -> & Hm)]|(m & -> & Hm)]; exists m; auto.
    + intros (m & [->|[->| ->]] & Hm); eauto.
Qed.

(** C3, as the code has it.  From any state an instance can reach,
    [reset] (a total function) gives exactly the object the constructor
    builds from the same arguments at the current clock reading, so the
    progress state is back at its initial value; a second [reset] at the
    same clock reading changes nothing.  [terminated] is then what it
    was at construction: false, except for a ceiling that is zero or
    negative, which the zeroed counter already reaches. *)
Theorem reset_restores_construction
    (now0 : float) (args : ctor) (c0 : condition) :
  construct now0 args = Ok c0 ->
  forall (ops : list op) (now : float),
    let c := fst (run c0 ops) in
    construct now args = Ok (reset now c) /\
    reset now (reset now c) = reset now c /\
    terminated (reset now c) = terminated c0 /\
    (terminated (reset now c) = true <-> nonpositive_ceiling args).
Proof.
  intros Hc ops now c. subst c. rewrite reset_run.
  pose proof (reset_construct now0 now args c0 Hc) as Hr.
  split; [exact Hr|].
  split; [apply reset_reset|].
  split.
  - exact (construct_terminated _ _ _ _ _ Hr Hc).
  - exact (construct_terminated_iff _ _ _ Hr).
Qed.

(** ** Token-usage budget: configuration errors *)

(** An operation on a token-usage condition leaves a token-usage
    condition and raises no [ValueError]. *)
Lemma token_step (c : condition) (o : op) :
  is_TokenUsage c = true ->
  is_TokenUsage (fst (step c o)) = true /\ is_ValueError (snd (step c o)) = false.
Proof.
  destruct c as [ | | | |t| | | | | | ]; try discriminate. intros _.
  destruct o as [now messages|now|]; cbn; [|split; reflexivity..].
  unfold TokenUsageTermination.__call__.
  destruct (TokenUsageTermination.terminated t); [split; reflexivity|]. cbn zeta.
  destruct (TokenUsageTermination.terminated _); split; reflexivity.
Qed.

Lemma token_run (ops : list op) (c : condition) :
  is_TokenUsage c = true ->
  existsb is_ValueError (snd (run c ops)) = false.
Proof.
  revert c. induction ops as [|o ops IH]; intros c Hc; [reflexivity|].
  rewrite run_cons. cbn [snd existsb].
  destruct (token_step c o Hc) as [Hc' Hout].
  now rewrite Hout, IH.
Qed.

(** C4.  [TokenUsageTermination()] with no ceiling at all raises
    [ValueError] at construction.  With at least one ceiling the
    construction succeeds, and no operation performed on the instance
    afterwards, evaluation or reset, raises a [ValueError]. *)
Theorem token_usage_configuration_error
    (now : float) (max_total max_prompt max_completion : option Z) :
  construct now (NewTokenUsage None None None) =
    Err (ValueError
      "At least one of max_total_token, max_prompt_token, or max_completion_token must be provided")
  /\
  ((max_total <> None \/ max_prompt <> None \/ max_completion <> None) ->
   exists c0,
     construct now (NewTokenUsage max_total max_prompt max_completion) = Ok c0 /\
     forall ops : list op, existsb is_ValueError (snd (run c0 ops)) = false).
Proof.
  split; [reflexivity|].
  intros Hsome.
  assert (Hc : exists o,
             construct now (NewTokenUsage max_total max_prompt max_completion)
             = Ok (CTokenUsage o)).
  { destruct max_total, max_prompt, max_completion; cbn; eauto.
    exfalso. destruct Hsome as [H|[H|H]]; now apply H. }
  destruct Hc as [o Ho]. exists (CTokenUsage o). split; [exact Ho|].
  intros ops. now apply token_run.
Qed.

(** ** Message-count budget *)

Lemma counted_qualifying (o : MaxMessageTermination.t) (messages : list Message) :
  Z.of_nat (List.length
    (filter (fun m => MaxMessageTermination._include_agent_event o || is_BaseChatMessage m)
            messages))
  = qualifying_count (MaxMessageTermination._include_agent_event o) messages.
Proof.
  unfold qualifying_count.
  destruct (MaxMessageTermination._include_agent_event o); cbn [orb].
  - replace (filter (fun _ => true) messages) with messages; [reflexivity|].
    induction messages as [|m ms IH]; cbn; congruence.
  - reflexivity.
Qed.

(** C5.  An evaluation of an untriggered [MaxMessageTermination] adds
    the number of qualifying messages of the batch to the counter; it
    returns nothing exactly when the new total is below the ceiling, and
    otherwise returns the stop directive that reports the new total,
    unclamped.  With ceiling 3 and one chat message per evaluation the
    first two evaluations return nothing and the third fires reporting
    3; a single batch of five chat messages fires reporting 5. *)
Theorem max_message_counts
    (o : MaxMessageTermination.t) (messages : list Message) :
  MaxMessageTermination.terminated o = false ->
  let total := MaxMessageTermination._message_count o
               + qualifying_count (MaxMessageTermination._include_agent_event o) messages in
  let ceiling := MaxMessageTermination._max_messages o in
  fst (MaxMessageTermination.__call__ o messages) = MaxMessageTermination.with_count o total
  /\ (total < ceiling -> snd (MaxMessageTermination.__call__ o messages) = Return None)
  /\ (total >= ceiling ->
      snd (MaxMessageTermination.__call__ o messages)
      = Return (Some (max_message_stop ceiling total)))
  /\ (forall now m,
        is_BaseChatMessage m = true ->
        snd (run (CMaxMessage (MaxMessageTermination.__init__ 3 false))
                 [Evaluate now [m]; Evaluate now [m]; Evaluate now [m]])
        = [Return None; Return None; Return (Some (max_message_stop 3 3))]
        /\ snd (MaxMessageTermination.__call__ (MaxMessageTermination.__init__ 3 false)
                  [m; m; m; m; m])
           = Return (Some (max_message_stop 3 5))).
Proof.
  intros Hnot total ceiling.
  unfold MaxMessageTermination.__call__. rewrite Hnot. cbn zeta.
  rewrite counted_qualifying. fold total. cbn [MaxMessageTermination.with_count
    MaxMessageTermination._message_count MaxMessageTermination._max_messages].
  fold ceiling.
  split; [destruct (total >=? ceiling); reflexivity|].
  split; [|split].
  - intros Hlt. destruct (total >=? ceiling) eqn:E; [|reflexivity].
    apply Z.geb_le in E. lia.
  - intros Hge. destruct (total >=? ceiling) eqn:E; [reflexivity|].
    rewrite Z.geb_leb in E. apply Z.leb_gt in E. lia.
  - intros now m Hm. cbn. unfold MaxMessageTermination.__call__. cbn.
    rewrite Hm. cbn. split; reflexivity.
Qed.

(** ** Token-usage budget: accumulation *)

Lemma reached_iff (limit : option Z) (count : Z) :
  TokenUsageTermination.reached limit count = true <-> ceiling_reached limit count.
Proof.
  unfold ceiling_reached. destruct limit as [m|]; cbn.
  - rewrite Z.geb_le. split; [intros H; now exists m|].
    intros (m' & [= <-] & H). exact H.
  - split; [discriminate|]. intros (m & H & _). discriminate H.
Qed.

Lemma sum_over_app (f : Message -> Z) (xs ys : list Message) :
  sum_over f (xs ++ ys) = sum_over f xs + sum_over f ys.
Proof.
  unfold sum_over. induction xs as [|x xs IH]; cbn; [reflexivity|].
  rewrite IH. lia.
Qed.

(** The loop of [TokenUsageTermination.__call__] adds the usage of
    every message of the batch to the three totals. *)
Lemma token_fold (messages : list Message) (o : TokenUsageTermination.t) :
  fold_left TokenUsageTermination.add_usage messages o = token_accumulated o messages.
Proof.
  revert o. induction messages as [|m ms IH]; intros o.
  - destruct o. unfold token_accumulated, TokenUsageTermination.with_counts. cbn.
    now rewrite !Z.add_0_r.
  - cbn [fold_left]. rewrite IH.
    unfold token_accumulated, TokenUsageTermination.add_usage, prompt_of, completion_of.
    cbn [sum_over fold_right].
    destruct (models_usage m) as [u|]; cbn;
      unfold TokenUsageTermination.with_counts, sum_over; cbn; f_equal; lia.
Qed.

Lemma token_call (o : TokenUsageTermination.t) (messages : list Message) :
  TokenUsageTermination.terminated o = false ->
  TokenUsageTermination.__call__ o messages =
    let o' := token_accumulated o messages in
    (o',
     if TokenUsageTermination.terminated o'
     then Return (Some (token_stop (TokenUsageTermination._total_token_count o')
                                   (TokenUsageTermination._prompt_token_count o')
                                   (TokenUsageTermination._completion_token_count o')))
     else Return None).
Proof.
  intros H. unfold TokenUsageTermination.__call__. rewrite H. cbn zeta.
  rewrite token_fold.
  destruct (TokenUsageTermination.terminated (token_accumulated o messages)); reflexivity.
Qed.

(** C6.  An evaluation of an untriggered [TokenUsageTermination] adds
    the usage of the batch to the prompt, completion and total counts,
    each on its own, and fires exactly when one of the configured
    ceilings is reached by its own count.  With only
    [max_prompt_token=10] and one message of usage
    [{prompt: 5, completion: 100}] per evaluation, the first evaluation
    returns nothing and the second fires: the prompt count is 10, while
    the completion count is 200 and the total 210. *)
Theorem token_usage_independent_ceilings
    (o : TokenUsageTermination.t) (messages : list Message) :
  TokenUsageTermination.terminated o = false ->
  let total := TokenUsageTermination._total_token_count o
               + sum_over (fun m => prompt_of m + completion_of m) messages in
  let prompt := TokenUsageTermination._prompt_token_count o + sum_over prompt_of messages in
  let completion :=
    TokenUsageTermination._completion_token_count o + sum_over completion_of messages in
  let fires :=
    ceiling_reached (TokenUsageTermination._max_total_token o) total
    \/ ceiling_reached (TokenUsageTermination._max_prompt_token o) prompt
    \/ ceiling_reached (TokenUsageTermination._max_completion_token o) completion in
  fst (TokenUsageTermination.__call__ o messages)
    = TokenUsageTermination.with_counts o total prompt completion
  /\ (fires -> snd (TokenUsageTermination.__call__ o messages)
               = Return (Some (token_stop total prompt completion)))
  /\ (~ fires -> snd (TokenUsageTermination.__call__ o messages) = Return None)
  /\ (forall now,
        exists c0,
          construct now (NewTokenUsage None (Some 10) None) = Ok c0 /\
          snd (run c0 [Evaluate now [usage_message "agent" 5 100];
                       Evaluate now [usage_message "agent" 5 100]])
          = [Return None; Return (Some (token_stop 210 10 200))]).
Proof.
  intros Hnot total prompt completion fires.
  rewrite (token_call o messages Hnot). cbn zeta.
  change (token_accumulated o messages)
    with (TokenUsageTermination.with_counts o total prompt completion).
  set (o' := TokenUsageTermination.with_counts o total prompt completion).
  assert (Hf : TokenUsageTermination.terminated o' = true <-> fires).
  { unfold TokenUsageTermination.terminated, fires, o'. cbn.
    rewrite !orb_true_iff, !reached_iff. tauto. }
  cbn [fst snd].
  split; [reflexivity|].
  split; [|split].
  - intros H. apply Hf in H. rewrite H. reflexivity.
  - intros H. destruct (TokenUsageTermination.terminated o'); [|reflexivity].
    exfalso. apply H, Hf. reflexivity.
  - intros now. eexists. split; reflexivity.
Qed.

(** C10.  [TokenUsageTermination] checks its ceilings once, after the
    loop: an evaluation adds the usage of every message of the batch,
    those after the message at which a ceiling was crossed too, and the
    totals it reports and keeps are those of the whole batch.  With
    [max_total_token=10], a batch whose first message already brings
    the total to 12 and whose second adds 100 more fires reporting 112,
    and 112 is the total the object retains. *)
Theorem token_usage_scans_whole_batch
    (o : TokenUsageTermination.t) (pre post : list Message) :
  TokenUsageTermination.terminated o = false ->
  let total := TokenUsageTermination._total_token_count o
               + sum_over (fun m => prompt_of m + completion_of m) pre
               + sum_over (fun m => prompt_of m + completion_of m) post in
  let prompt := TokenUsageTermination._prompt_token_count o
                + sum_over prompt_of pre + sum_over prompt_of post in
  let completion := TokenUsageTermination._completion_token_count o
                    + sum_over completion_of pre + sum_over completion_of post in
  let o' := fst (TokenUsageTermination.__call__ o (pre ++ post)) in
  o' = TokenUsageTermination.with_counts o total prompt completion
  /\ (TokenUsageTermination.terminated (token_accumulated o pre) = true ->
      TokenUsageTermination.terminated o' = true ->
      snd (TokenUsageTermination.__call__ o (pre ++ post))
      = Return (Some (token_stop total prompt completion)))
  /\ (forall o0,
        TokenUsageTermination.__init__ (Some 10) None None = Ok o0 ->
        TokenUsageTermination.__call__ o0 [usage_message "agent" 6 6]
        = (TokenUsageTermination.with_counts o0 12 6 6, Return (Some (token_stop 12 6 6)))
        /\ TokenUsageTermination.__call__ o0
             [usage_message "agent" 6 6; usage_message "agent" 50 50]
           = (TokenUsageTermination.with_counts o0 112 56 56,
              Return (Some (token_stop 112 56 56)))).
Proof.
  intros Hnot total prompt completion o'. subst o'.
  rewrite (token_call o (pre ++ post) Hnot). cbn zeta. cbn [fst snd].
  assert (Ho : token_accumulated o (pre ++ post)
               = TokenUsageTermination.with_counts o total prompt completion).
  { unfold token_accumulated. rewrite !sum_over_app.
    unfold total, prompt, completion. f_equal; lia. }
  rewrite Ho.
  split; [reflexivity|].
  split.
  - intros _ Hfire. rewrite Hfire. reflexivity.
  - intros o0 [= <-]. split; reflexivity.
Qed.

(** ** Message-count budget with a ceiling of zero or less *)

(** With a ceiling of zero or less, no operation changes a fresh
    [MaxMessageTermination] or returns a stop directive. *)
Lemma max_message_stuck_step (m : Z) (i : bool) (o : op) :
  m <= 0 ->
  let c0 := CMaxMessage (MaxMessageTermination.__init__ m i) in
  fst (step c0 o) = c0 /\ is_fired (snd (step c0 o)) = false.
Proof.
  intros Hm c0.
  assert (Ht : MaxMessageTermination.terminated (MaxMessageTermination.__init__ m i) = true).
  { unfold MaxMessageTermination.terminated. cbn. apply Z.geb_le. exact Hm. }
  destruct o as [now messages|now|]; cbn; [|split; reflexivity..].
  unfold MaxMessageTermination.__call__. rewrite Ht. split; reflexivity.
Qed.

Lemma max_message_stuck_run (m : Z) (i : bool) (ops : list op) :
  m <= 0 ->
  let c0 := CMaxMessage (MaxMessageTermination.__init__ m i) in
  fst (run c0 ops) = c0 /\ existsb is_fired (snd (run c0 ops)) = false.
Proof.
  intros Hm c0. induction ops as [|o ops [IHc IHo]]; [split; reflexivity|].
  rewrite run_cons. cbn [fst snd existsb].
  destruct (max_message_stuck_step m i o Hm) as [Hc Ho]. fold c0 in Hc, Ho.
  rewrite Hc, Ho. split; assumption.
Qed.

(** C9.  [MaxMessageTermination] accepts any [max_messages].  When it
    is zero or negative the construction succeeds and the instance is
    triggered from the start; after any sequence of operations,
    resets included, it is still triggered, a reset leaves it
    triggered, every evaluation raises [TerminatedException], and no
    operation has returned a stop directive. *)
Theorem max_message_nonpositive_never_fires
    (now : float) (max_messages : Z) (include_agent_event : bool) :
  max_messages <= 0 ->
  exists c0,
    construct now (NewMaxMessage max_messages include_agent_event) = Ok c0 /\
    terminated c0 = true /\
    forall ops : list op,
      let c := fst (run c0 ops) in
      terminated c = true /\
      (forall now', terminated (reset now' c) = true) /\
      (forall now' batch, snd (call now' c batch)
         = Raise (TerminatedException "Termination condition has already been reached")) /\
      existsb is_fired (snd (run c0 ops)) = false.
Proof.
  intros Hm. eexists. split; [reflexivity|].
  assert (Ht : terminated (CMaxMessage
                 (MaxMessageTermination.__init__ max_messages include_agent_event)) = true).
  { cbn. unfold MaxMessageTermination.terminated. cbn. apply Z.geb_le. exact Hm. }
  split; [exact Ht|].
  intros ops c.
  destruct (max_message_stuck_run max_messages include_agent_event ops Hm) as [Hc Ho].
  subst c. rewrite Hc.
  split; [exact Ht|].
  split; [intros now'; exact Ht|].
  split; [|exact Ho].
  intros now' batch. now rewrite call_terminated.
Qed.

(** ** Externally set flag *)

Lemma run_app (xs ys : list op) (c : condition) :
  fst (run c (xs ++ ys)) = fst (run (fst (run c xs)) ys).
Proof.
  revert c. induction xs as [|x xs IH]; intros c; [reflexivity|].
  cbn [app]. rewrite !run_cons. cbn [fst]. apply IH.
Qed.

(** Without an evaluation an [ExternalTermination] is not triggered. *)
Lemma external_idle_run (ops : list op) (c : condition) :
  existsb is_Evaluate ops = false ->
  external_idle c ->
  external_idle (fst (run c ops)).
Proof.
  revert c. induction ops as [|o ops IH]; intros c He Hc; [exact Hc|].
  cbn [existsb] in He. apply orb_false_iff in He as [Ho He].
  rewrite run_cons. cbn [fst]. apply IH; [exact He|].
  destruct Hc as (x & -> & Hx).
  destruct o as [now messages|now|]; [discriminate Ho| |]; cbn.
  - eexists. split; reflexivity.
  - eexists. split; [reflexivity|exact Hx].
Qed.

(** Once armed, it stays armed until a reset or an evaluation. *)
Lemma armed_run (ops : list op) :
  existsb is_Evaluate ops = false ->
  existsb is_Reset ops = false ->
  fst (run armed ops) = armed.
Proof.
  induction ops as [|o ops IH]; intros He Hr; [reflexivity|].
  cbn [existsb] in He, Hr.
  apply orb_false_iff in He as [Ho He]. apply orb_false_iff in Hr as [Ho' Hr].
  rewrite run_cons. cbn [fst].
  destruct o as [now messages|now|]; [discriminate Ho|discriminate Ho'|].
  cbn. now apply IH.
Qed.

Lemma external_latched_step (c : condition) (o : op) :
  external_latched c -> external_latched (fst (step c o)).
Proof.
  intros (x & -> & Hx). destruct o as [now messages|now|]; cbn.
  - unfold ExternalTermination.__call__.
    destruct (ExternalTermination._terminated x) eqn:Et; cbn.
    + eexists. split; [reflexivity|]. intros _. now apply Hx.
    + destruct (ExternalTermination._setted x) eqn:Es; cbn;
        eexists; (split; [reflexivity|]); cbn; congruence.
  - eexists. split; [reflexivity|]. cbn. discriminate.
  - eexists. split; [reflexivity|]. reflexivity.
Qed.

(** C7, as the code has it.  If [set()] is called before the first
    evaluation and no [reset()] comes between it and that evaluation
    (earlier [set()] and [reset()] calls and further [set()] calls are
    free), the first evaluation fires whatever the batch, the empty one
    included.  On an instance that has triggered, [set()]
    leaves the object exactly as it was, so nothing that follows can
    tell that it was called. *)
Theorem external_set_before_and_after
    (before after : list op) (history : list op) :
  existsb is_Evaluate (before ++ after) = false ->
  existsb is_Reset after = false ->
  let fresh := CExternal ExternalTermination.__init__ in
  (forall now batch,
     snd (step (fst (run fresh (before ++ ExternalSet :: after))) (Evaluate now batch))
     = Return (Some external_stop))
  /\ (let c := fst (run fresh history) in
      terminated c = true -> set c = Ok c).
Proof.
  intros He Hr fresh. rewrite existsb_app in He.
  apply orb_false_iff in He as [Hb Ha].
  split.
  - intros now batch. rewrite run_app, run_cons. cbn [fst].
    assert (Hidle : external_idle (fst (run fresh before))).
    { apply external_idle_run; [exact Hb|]. eexists. split; reflexivity. }
    destruct Hidle as (x & -> & Hx).
    replace (fst (step (CExternal x) ExternalSet)) with armed.
    + rewrite (armed_run after Ha Hr). reflexivity.
    + cbn. unfold ExternalTermination.set, armed. now rewrite Hx.
  - intros c.
    assert (Hl : external_latched c).
    { apply (run_invariant external_latched).
      - intros c' o. apply external_latched_step.
      - eexists. split; [reflexivity|]. discriminate. }
    destruct Hl as (x & -> & Hx). cbn. intros Ht.
    unfold ExternalTermination.terminated in Ht.
    destruct x as [t s]. cbn in *. rewrite (Hx Ht), Ht. reflexivity.
Qed.

(** ** Stateless triggers: first match *)

(** Every detector's [__call__] is the same scan. *)
Lemma stateless_call (now : float) (c : condition) (messages : list Message) :
  stateless_trigger c = true ->
  call now c messages =
    if terminated c then (c, Raise already_reached)
    else match for_return (body_of c) messages with
         | Some stop => (triggered_copy c, Return (Some stop))
         | None => (c, Return None)
         end.
Proof.
  destruct c; try discriminate; intros _; cbn; unfold_call;
    repeat branch; solve [reflexivity | discriminate].
Qed.

Lemma for_return_existsb {A R : Type} (p : A -> bool) (v : R) (xs : list A) :
  is_Some (for_return (fun x => if p x then Some v else None) xs) = existsb p xs.
Proof.
  induction xs as [|x xs IH]; cbn; [reflexivity|].
  destruct (p x); [reflexivity|exact IH].
Qed.

(** The loop body returns exactly on a qualifying message. *)
Lemma body_qualifies (c : condition) (m : Message) :
  stateless_trigger c = true ->
  is_Some (body_of c m) = qualifies c m.
Proof.
  destruct c as [o|o|o|o|o|o|o|o|o|o|o]; try discriminate; intros _; cbn.
  - unfold StopMessageTermination.body. destruct (is_StopMessage m); reflexivity.
  - unfold TextMentionTermination.body, TextMentionTermination.skipped.
    destruct (TextMentionTermination._sources o) as [allowed|]; cbn.
    + destruct (str_in (source m) allowed); cbn; [|reflexivity].
      destruct (str_contains _ _); reflexivity.
    + destruct (str_contains _ _); reflexivity.
  - unfold HandoffTermination.body. destruct (kind m); try reflexivity.
    destruct (String.eqb _ _); reflexivity.
  - unfold SourceMatchTermination.body. destruct (str_in _ _); reflexivity.
  - unfold TextMessageTermination.body, TextMessageTermination.source_ok.
    destruct (is_TextMessage m && _); reflexivity.
  - unfold FunctionCallTermination.body, FunctionCallTermination.inner.
    destruct (kind m); try reflexivity.
    apply for_return_existsb.
Qed.

(** A loop that returns at [m] never looks at what follows [m]. *)
Lemma for_return_first {A R : Type} (body : A -> option R) (pre post : list A) (m : A) :
  forallb (fun x => negb (is_Some (body x))) pre = true ->
  is_Some (body m) = true ->
  for_return body (pre ++ m :: post) = body m /\ for_return body pre = None.
Proof.
  intros Hpre Hm. induction pre as [|x pre IH]; cbn.
  - destruct (body m); [split; reflexivity|discriminate Hm].
  - cbn in Hpre. apply andb_true_iff in Hpre as [Hx Hpre].
    destruct (body x); [discriminate Hx|]. now apply IH.
Qed.

(** C8.  For each of the six stateless detectors and any batch whose
    first qualifying message is [m], the evaluation gives the same
    result and the same object as on the batch cut after [m], and the
    same as on [m] alone: the messages after [m] play no part, and those
    before it only delay the match.  From an untriggered detector that
    result is a stop directive, and the messages before [m] on their
    own return nothing and leave the detector as it was. *)
Theorem stateless_first_match
    (now : float) (c : condition) (pre post : list Message) (m : Message) :
  stateless_trigger c = true ->
  forallb (fun x => negb (qualifies c x)) pre = true ->
  qualifies c m = true ->
  call now c (pre ++ m :: post) = call now c (pre ++ [m])
  /\ call now c (pre ++ m :: post) = call now c [m]
  /\ (terminated c = false ->
      is_fired (snd (call now c [m])) = true
      /\ call now c pre = (c, Return None)).
Proof.
  intros Hc Hpre Hm.
  assert (Hpre' : forallb (fun x => negb (is_Some (body_of c x))) pre = true).
  { rewrite <- Hpre. clear Hpre. induction pre as [|x pre IH]; [reflexivity|].
    cbn. now rewrite IH, body_qualifies. }
  assert (Hm' : is_Some (body_of c m) = true) by now rewrite body_qualifies.
  destruct (for_return_first (body_of c) pre post m Hpre' Hm') as [Hfull Hnone].
  destruct (for_return_first (body_of c) pre [] m Hpre' Hm') as [Hcut _].
  destruct (for_return_first (body_of c) [] [] m eq_refl Hm') as [Hone _].
  cbn [app] in Hone.
  rewrite !(stateless_call now c) by exact Hc.
  rewrite Hfull, Hcut, Hone, Hnone.
  split; [reflexivity|]. split; [reflexivity|].
  intros Ht. rewrite Ht.
  destruct (body_of c m); [split; reflexivity|discriminate Hm'].
Qed.


(** ** Exceptions and unchanged objects *)


(** An evaluation of a flag-based condition (any class but the two
    counting ones) that returns nothing leaves the object exactly as it
    was. *)
Theorem call_none_leaves_object
    (now : float) (c : condition) (messages : list Message) :
  counter_based c = false ->
  snd (call now c messages) = Return None ->
  fst (call now c messages) = c /\ terminated c = false.
Proof.
  destruct c as [o|o|o|o|o|o|o|o|o|o|o]; try discriminate; intros _;
    cbn; unfold_call; repeat branch; cbn; intros H; try discriminate H;
    split; reflexivity.
Qed.


(** ** Empty batches and split batches *)

(** On an empty batch an untriggered condition that only reads its
    batch (the six detectors and the two counters) returns nothing and
    is left as it was. *)
Theorem call_empty_batch (now : float) (c : condition) :
  stateless_trigger c || counter_based c = true ->
  terminated c = false ->
  call now c [] = (c, Return None).
Proof.
  destruct c as [o|o|o|o|o|o|o|o|o|o|o]; try discriminate; intros _; cbn;
    unfold_call; intros H; rewrite H; cbn; try reflexivity.
  - unfold MaxMessageTermination.terminated in H.
    rewrite Z.add_0_r, H. destruct o; reflexivity.
  - rewrite H. reflexivity.
Qed.

Lemma for_return_app_none {A R : Type} (body : A -> option R) (xs ys : list A) :
  for_return body xs = None ->
  for_return body (xs ++ ys) = for_return body ys.
Proof.
  induction xs as [|x xs IH]; cbn; [reflexivity|].
  destruct (body x); [discriminate|exact IH].
Qed.

Lemma max_message_split (o : MaxMessageTermination.t) (a b : list Message) :
  snd (MaxMessageTermination.__call__ o a) = Return None ->
  MaxMessageTermination.__call__ (fst (MaxMessageTermination.__call__ o a)) b
  = MaxMessageTermination.__call__ o (a ++ b).
Proof.
  unfold MaxMessageTermination.__call__ at 1 3 4.
  destruct (MaxMessageTermination.terminated o) eqn:Ht; [discriminate|]. cbn zeta.
  rewrite filter_app, length_app, Nat2Z.inj_add, Z.add_assoc.
  cbn [MaxMessageTermination.with_count MaxMessageTermination._message_count
       MaxMessageTermination._max_messages MaxMessageTermination._include_agent_event].
  destruct (_ >=? _) eqn:E; [discriminate|]. intros _. cbn [fst].
  unfold MaxMessageTermination.__call__, MaxMessageTermination.terminated.
  cbn [MaxMessageTermination.with_count MaxMessageTermination._message_count
       MaxMessageTermination._max_messages MaxMessageTermination._include_agent_event].
  rewrite E. reflexivity.
Qed.

Lemma token_split (o : TokenUsageTermination.t) (a b : list Message) :
  snd (TokenUsageTermination.__call__ o a) = Return None ->
  TokenUsageTermination.__call__ (fst (TokenUsageTermination.__call__ o a)) b
  = TokenUsageTermination.__call__ o (a ++ b).
Proof.
  unfold TokenUsageTermination.__call__ at 1 3 4.
  destruct (TokenUsageTermination.terminated o) eqn:Ht; [discriminate|]. cbn zeta.
  rewrite fold_left_app.
  destruct (TokenUsageTermination.terminated (fold_left _ a o)) eqn:E; [discriminate|].
  intros _. cbn [fst]. unfold TokenUsageTermination.__call__. rewrite E. reflexivity.
Qed.

(** Cutting a batch in two does not change an evaluation: when the
    first part returns nothing, evaluating the second part next gives
    the result and the object that evaluating the whole batch at once
    gives.  ([FunctionalTermination] is left out: its function sees the
    batch as a whole.) *)
Theorem call_split_batch
    (now now' : float) (c c' : condition) (a b : list Message) :
  is_Functional c = false ->
  call now c a = (c', Return None) ->
  call now' c' b = call now' c (a ++ b).
Proof.
  intros Hf Hcall.
  destruct (stateless_trigger c) eqn:Hs.
  - rewrite (stateless_call now c a Hs) in Hcall.
    destruct (terminated c) eqn:Ht; [discriminate|].
    destruct (for_return (body_of c) a) eqn:Ha; [discriminate|].
    injection Hcall as <-.
    rewrite !(stateless_call now' c) by exact Hs.
    now rewrite Ht, for_return_app_none.
  - destruct c as [o|o|o|o|o|o|o|o|o|o|o]; try discriminate; cbn in *.
    + unfold on_fst in Hcall. injection Hcall as <- Hn.
      cbn. unfold on_fst. now rewrite max_message_split.
    + unfold on_fst in Hcall. injection Hcall as <- Hn.
      cbn. unfold on_fst. now rewrite token_split.
    + unfold_call_in Hcall. repeat branch_in Hcall; try discriminate Hcall.
      injection Hcall as <-. reflexivity.
    + unfold_call_in Hcall. repeat branch_in Hcall; try discriminate Hcall.
      injection Hcall as <-. reflexivity.
Qed.


(** ** What a stop directive says, and when one is returned *)

Lemma for_return_is_Some {A R : Type} (body : A -> option R) (xs : list A) :
  is_Some (for_return body xs) = existsb (fun x => is_Some (body x)) xs.
Proof.
  induction xs as [|x xs IH]; cbn; [reflexivity|].
  destruct (body x); [reflexivity|exact IH].
Qed.

(** An untriggered detector fires exactly when the batch contains a
    qualifying message. *)
Theorem stateless_fires_iff_qualifies
    (now : float) (c : condition) (messages : list Message) :
  stateless_trigger c = true ->
  terminated c = false ->
  is_fired (snd (call now c messages)) = existsb (qualifies c) messages.
Proof.
  intros Hs Ht. rewrite (stateless_call now c messages Hs), Ht.
  assert (He : existsb (qualifies c) messages
               = existsb (fun x => is_Some (body_of c x)) messages).
  { induction messages as [|m ms IH]; [reflexivity|].
    cbn. now rewrite IH, body_qualifies. }
  rewrite He, <- for_return_is_Some.
  destruct (for_return (body_of c) messages); reflexivity.
Qed.

(** What a loop returns, its body returned for some element. *)
Lemma for_return_from_body {A R : Type} (P : R -> Prop) (body : A -> option R)
    (xs : list A) (v : R) :
  (forall x w, body x = Some w -> P w) ->
  for_return body xs = Some v ->
  P v.
Proof.
  intros Hbody. induction xs as [|x xs IH]; cbn; [discriminate|].
  destruct (body x) eqn:E; [|exact IH].
  intros [= <-]. exact (Hbody x _ E).
Qed.

Lemma body_source (c : condition) (m : Message) (stop : Stop.t) :
  body_of c m = Some stop ->
  Stop.source stop = class_name c.
Proof.
  destruct c as [o|o|o|o|o|o|o|o|o|o|o]; cbn; try discriminate.
  - unfold StopMessageTermination.body. branch; intros [= <-]; reflexivity.
  - unfold TextMentionTermination.body. repeat branch; intros [= <-]; reflexivity.
  - unfold HandoffTermination.body. repeat branch; intros [= <-]; reflexivity.
  - unfold SourceMatchTermination.body. branch; intros [= <-]; reflexivity.
  - unfold TextMessageTermination.body. branch; intros [= <-]; reflexivity.
  - unfold FunctionCallTermination.body. destruct (kind m); try discriminate.
    apply (for_return_from_body (fun w => Stop.source w = "FunctionCallTermination")).
    intros x w. unfold FunctionCallTermination.inner. branch; intros [= <-]; reflexivity.
Qed.

(** The [source] of a returned stop directive is the name of the class
    of the condition that returned it. *)
Theorem stop_source_is_class_name
    (now : float) (c c' : condition) (messages : list Message) (stop : Stop.t) :
  call now c messages = (c', Return (Some stop)) ->
  Stop.source stop = class_name c.
Proof.
  destruct (stateless_trigger c) eqn:Hs.
  - rewrite (stateless_call now c messages Hs).
    destruct (terminated c); [discriminate|].
    destruct (for_return (body_of c) messages) eqn:E; [|discriminate].
    intros [= _ <-].
    apply (for_return_from_body (fun w => Stop.source w = class_name c) _ _ _
             (body_source c) E).
  - destruct c as [o|o|o|o|o|o|o|o|o|o|o]; try discriminate; cbn; unfold_call;
      repeat branch; cbn; intros H; try discriminate H;
      injection H as _ <-; reflexivity.
Qed.

(** ** At most one stop directive between resets *)

Lemma step_fired_is_call (c : condition) (o : op) :
  is_fired (snd (step c o)) = true ->
  terminated (fst (step c o)) = true.
Proof.
  destruct o as [now messages|now|]; cbn [step]; cbn [snd is_fired]; try discriminate.
  - destruct (call now c messages) as [c' out] eqn:E. cbn [fst snd].
    destruct out as [[stop|]|e]; try discriminate. intros _.
    exact (call_fires_terminated _ _ _ _ _ E).
  - destruct (set c); discriminate.
Qed.

Lemma terminated_run_silent (ops : list op) (c : condition) :
  existsb is_Reset ops = false ->
  terminated c = true ->
  count_fired (snd (run c ops)) = 0%nat.
Proof.
  unfold count_fired. revert c. induction ops as [|o ops IH]; intros c Hr Ht; [reflexivity|].
  cbn [existsb] in Hr. apply orb_false_iff in Hr as [Ho Hr].
  rewrite run_cons. cbn [snd filter].
  assert (Hout : is_fired (snd (step c o)) = false).
  { destruct o as [now messages|now|]; cbn [step].
    - now rewrite call_terminated.
    - reflexivity.
    - destruct (set c); reflexivity. }
  rewrite Hout. apply IH; [exact Hr|]. now apply step_keeps_terminated.
Qed.

(** Over any sequence of operations without a [reset], a condition
    returns a stop directive at most once. *)
Theorem at_most_one_stop (ops : list op) (c : condition) :
  existsb is_Reset ops = false ->
  (count_fired (snd (run c ops)) <= 1)%nat.
Proof.
  revert c. induction ops as [|o ops IH]; intros c Hr; [cbn; lia|].
  pose proof Hr as Hr'. cbn [existsb] in Hr'. apply orb_false_iff in Hr' as [Ho Hops].
  rewrite run_cons. unfold count_fired. cbn [snd filter].
  destruct (is_fired (snd (step c o))) eqn:E.
  - cbn [List.length]. apply step_fired_is_call in E.
    pose proof (terminated_run_silent ops _ Hops E) as H0.
    unfold count_fired in H0. rewrite H0. lia.
  - apply IH. exact Hops.
Qed.


(** ** More on the externally set flag *)

(** An [ExternalTermination] on which [set()] is never called never
    returns a stop directive, whatever is evaluated and however often
    it is reset. *)
Theorem external_silent_without_set (ops : list op) :
  existsb is_ExternalSet ops = false ->
  let fresh := CExternal ExternalTermination.__init__ in
  fst (run fresh ops) = fresh /\ count_fired (snd (run fresh ops)) = 0%nat.
Proof.
  intros Hs fresh. unfold count_fired.
  induction ops as [|o ops IH]; [split; reflexivity|].
  cbn [existsb] in Hs. apply orb_false_iff in Hs as [Ho Hs].
  rewrite run_cons.
  destruct o as [now messages|now|]; [| |discriminate Ho]; cbn [step fst snd];
    apply IH, Hs.
Qed.

(** ** More on the token-usage budget *)

(** In every state a [TokenUsageTermination] can reach, the total count
    is the sum of the prompt and completion counts. *)
Theorem token_total_is_sum
    (now : float) (max_total max_prompt max_completion : option Z)
    (c0 : condition) (ops : list op) :
  construct now (NewTokenUsage max_total max_prompt max_completion) = Ok c0 ->
  exists o,
    fst (run c0 ops) = CTokenUsage o /\
    TokenUsageTermination._total_token_count o
    = TokenUsageTermination._prompt_token_count o
      + TokenUsageTermination._completion_token_count o.
Proof.
  intros Hc.
  apply (run_invariant (fun c => exists o, c = CTokenUsage o /\
           TokenUsageTermination._total_token_count o
           = TokenUsageTermination._prompt_token_count o
             + TokenUsageTermination._completion_token_count o)).
  - intros c o (x & -> & Hx). destruct o as [now' messages|now'|]; cbn.
    + destruct (TokenUsageTermination.terminated x) eqn:Ht.
      * unfold TokenUsageTermination.__call__. rewrite Ht. now exists x.
      * rewrite (token_call x messages Ht). cbn zeta. cbn [fst].
        eexists. split; [reflexivity|]. unfold token_accumulated. cbn.
        rewrite Hx. clear. unfold sum_over.
        induction messages as [|m ms IH]; cbn; lia.
    + eexists. split; reflexivity.
    + now exists x.
  - cbn in Hc. destruct (TokenUsageTermination.__init__ _ _ _) as [o|e] eqn:E;
      cbn in Hc; [|discriminate]. injection Hc as <-.
    exists o. split; [reflexivity|].
    unfold TokenUsageTermination.__init__ in E.
    destruct max_total, max_prompt, max_completion; try discriminate E;
      injection E as <-; reflexivity.
Qed.

Lemma nonnegative_usage_sums (messages : list Message) :
  nonnegative_usage messages = true ->
  0 <= sum_over prompt_of messages /\ 0 <= sum_over completion_of messages.
Proof.
  unfold nonnegative_usage, sum_over.
  induction messages as [|m ms IH]; cbn; [lia|].
  intros H. apply andb_true_iff in H as [Hm H].
  apply andb_true_iff in Hm as [Hp Hc].
  apply Z.leb_le in Hp. apply Z.leb_le in Hc.
  specialize (IH H). lia.
Qed.

Lemma reached_add (limit : option Z) (n k : Z) :
  0 <= k ->
  TokenUsageTermination.reached limit n = true ->
  TokenUsageTermination.reached limit (n + k) = true.
Proof.
  destruct limit as [m|]; cbn; [|discriminate].
  rewrite !Z.geb_le. lia.
Qed.

(** When no message reports a negative token count, more messages
    cannot undo a crossing: if a batch fires, so does the batch with
    further messages appended. *)
Theorem token_usage_more_messages_still_fire
    (o : TokenUsageTermination.t) (pre post : list Message) :
  nonnegative_usage post = true ->
  is_fired (snd (TokenUsageTermination.__call__ o pre)) = true ->
  is_fired (snd (TokenUsageTermination.__call__ o (pre ++ post))) = true.
Proof.
  intros Hpost.
  destruct (TokenUsageTermination.terminated o) eqn:Ht.
  { unfold TokenUsageTermination.__call__. rewrite Ht. discriminate. }
  rewrite !(token_call o _ Ht). cbn zeta. cbn [snd].
  destruct (nonnegative_usage_sums post Hpost) as [Hp Hc].
  assert (Hs : sum_over (fun m => prompt_of m + completion_of m) post
               = sum_over prompt_of post + sum_over completion_of post).
  { clear. unfold sum_over. induction post as [|m ms IH]; cbn; lia. }
  destruct (TokenUsageTermination.terminated (token_accumulated o pre)) eqn:E;
    [|discriminate]. intros _.
  assert (Hsum : 0 <= sum_over (fun m => prompt_of m + completion_of m) post)
    by (rewrite Hs; lia).
  assert (E' : TokenUsageTermination.terminated (token_accumulated o (pre ++ post)) = true).
  { unfold TokenUsageTermination.terminated, token_accumulated in *. cbn in *.
    rewrite !sum_over_app, !Z.add_assoc.
    apply orb_true_iff in E as [E|E]; [apply orb_true_iff in E as [E|E]|].
    - rewrite (reached_add _ _ _ Hsum E). reflexivity.
    - rewrite (reached_add _ _ _ Hp E). now rewrite orb_true_r.
    - rewrite (reached_add _ _ _ Hc E). now rewrite !orb_true_r. }
  rewrite E'. reflexivity.
Qed.


(** ** More on the message-count budget *)

Lemma run_app_snd (xs ys : list op) (c : condition) :
  snd (run c (xs ++ ys))
  = (snd (run c xs) ++ snd (run (fst (run c xs)) ys))%list.
Proof.
  revert c. induction xs as [|x xs IH]; intros c; [reflexivity|].
  cbn [app]. rewrite !run_cons. cbn [fst snd]. now rewrite IH.
Qed.

Lemma qualifying_count_nonneg (i : bool) (messages : list Message) :
  0 <= qualifying_count i messages.
Proof. unfold qualifying_count. destruct i; lia. Qed.

Lemma qualifying_total_nonneg (i : bool) (batches : list (list Message)) :
  0 <= qualifying_total i batches.
Proof.
  induction batches as [|b bs IH]; cbn; [lia|].
  pose proof (qualifying_count_nonneg i b). unfold qualifying_total in IH. lia.
Qed.

(** One evaluation of a [MaxMessageTermination] whose new total stays
    below the ceiling. *)
Lemma max_message_quiet_call (o : MaxMessageTermination.t) (messages : list Message) :
  MaxMessageTermination._message_count o
  + qualifying_count (MaxMessageTermination._include_agent_event o) messages
  < MaxMessageTermination._max_messages o ->
  MaxMessageTermination.__call__ o messages
  = (MaxMessageTermination.with_count o
       (MaxMessageTermination._message_count o
        + qualifying_count (MaxMessageTermination._include_agent_event o) messages),
     Return None).
Proof.
  intros Hlt. pose proof (qualifying_count_nonneg
    (MaxMessageTermination._include_agent_event o) messages) as Hq.
  assert (Ht : (MaxMessageTermination._message_count o
                >=? MaxMessageTermination._max_messages o) = false)
    by (rewrite Z.geb_leb; apply Z.leb_gt; lia).
  assert (E : (MaxMessageTermination._message_count o
               + qualifying_count (MaxMessageTermination._include_agent_event o) messages
               >=? MaxMessageTermination._max_messages o) = false)
    by (rewrite Z.geb_leb; apply Z.leb_gt; lia).
  unfold MaxMessageTermination.__call__, MaxMessageTermination.terminated.
  rewrite Ht. cbn zeta. rewrite counted_qualifying.
  cbn [MaxMessageTermination.with_count MaxMessageTermination._message_count
       MaxMessageTermination._max_messages].
  rewrite E. reflexivity.
Qed.

Lemma max_message_quiet_turns
    (now : float) (batches : list (list Message)) (o : MaxMessageTermination.t) :
  MaxMessageTermination._message_count o
  + qualifying_total (MaxMessageTermination._include_agent_event o) batches
  < MaxMessageTermination._max_messages o ->
  run (CMaxMessage o) (map (Evaluate now) batches)
  = (CMaxMessage (MaxMessageTermination.with_count o
       (MaxMessageTermination._message_count o
        + qualifying_total (MaxMessageTermination._include_agent_event o) batches)),
     repeat (Return None) (List.length batches)).
Proof.
  revert o. induction batches as [|b bs IH]; intros o Hlt.
  - cbn. rewrite Z.add_0_r. destruct o; reflexivity.
  - cbn [map List.length repeat qualifying_total fold_right] in *.
    fold (qualifying_total (MaxMessageTermination._include_agent_event o) bs) in *.
    pose proof (qualifying_total_nonneg (MaxMessageTermination._include_agent_event o) bs).
    rewrite run_cons. cbn [step call on_fst].
    rewrite max_message_quiet_call by lia. unfold on_fst. cbn [fst snd].
    rewrite IH; cbn; [|lia].
    now rewrite Z.add_assoc.
Qed.

(** Over several turns a [MaxMessageTermination] returns nothing as
    long as the qualifying messages seen so far stay below the ceiling,
    and fires on the turn that brings their number to the ceiling or
    beyond, reporting that number. *)
Theorem max_message_fires_at_crossing
    (now : float) (o : MaxMessageTermination.t)
    (batches : list (list Message)) (last : list Message) :
  let include := MaxMessageTermination._include_agent_event o in
  let seen := MaxMessageTermination._message_count o + qualifying_total include batches in
  seen < MaxMessageTermination._max_messages o ->
  MaxMessageTermination._max_messages o <= seen + qualifying_count include last ->
  snd (run (CMaxMessage o) (map (Evaluate now) (batches ++ [last])))
  = (repeat (Return None) (List.length batches)
     ++ [Return (Some (max_message_stop (MaxMessageTermination._max_messages o)
                                        (seen + qualifying_count include last)))])%list.
Proof.
  intros include seen Hlt Hge.
  rewrite map_app, run_app_snd, (max_message_quiet_turns now batches o Hlt).
  cbn [fst snd]. f_equal. fold include. fold seen.
  cbn [map run step call fst snd]. unfold on_fst. cbn [fst snd].
  unfold MaxMessageTermination.__call__, MaxMessageTermination.terminated.
  cbn [MaxMessageTermination.with_count MaxMessageTermination._message_count
       MaxMessageTermination._max_messages MaxMessageTermination._include_agent_event].
  assert (Ht : (seen >=? MaxMessageTermination._max_messages o) = false)
    by (rewrite Z.geb_leb; apply Z.leb_gt; lia).
  assert (E : (seen + qualifying_count include last
               >=? MaxMessageTermination._max_messages o) = true)
    by (apply Z.geb_le; lia).
  rewrite Ht. rewrite counted_qualifying.
  cbn [MaxMessageTermination._include_agent_event]. fold include.
  rewrite E. reflexivity.
Qed.


(** ** Text mention: allow-list and empty text *)

(** With an allow-list, a batch none of whose messages comes from an
    allowed source returns nothing and leaves the detector as it was,
    whatever the messages say; with the empty allow-list that is every
    batch. *)
Theorem text_mention_outside_allow_list
    (o : TextMentionTermination.t) (allowed : list string) (messages : list Message) :
  TextMentionTermination._sources o = Some allowed ->
  TextMentionTermination._terminated o = false ->
  (forallb (fun m => negb (str_in (source m) allowed)) messages = true ->
   TextMentionTermination.__call__ o messages = (o, Return None))
  /\ (allowed = [] -> TextMentionTermination.__call__ o messages = (o, Return None)).
Proof.
  intros Hs Ht.
  assert (Hgen : forallb (fun m => negb (str_in (source m) allowed)) messages = true ->
                 TextMentionTermination.__call__ o messages = (o, Return None)).
  { intros Hout. unfold TextMentionTermination.__call__. rewrite Ht.
    assert (Hn : for_return (TextMentionTermination.body o) messages = None).
    { induction messages as [|m ms IH]; [reflexivity|].
      cbn in Hout. apply andb_true_iff in Hout as [Hm Hout].
      cbn. unfold TextMentionTermination.body at 1, TextMentionTermination.skipped.
      rewrite Hs, Hm. now apply IH. }
    now rewrite Hn. }
  split; [exact Hgen|].
  intros ->. apply Hgen. clear. induction messages as [|m ms IH]; [reflexivity|exact IH].
Qed.

Lemma str_contains_empty (s : string) : str_contains EmptyString s = true.
Proof. destruct s; reflexivity. Qed.

(** With the empty string as text, the first message that the
    allow-list does not exclude fires the detector, whatever it says. *)
Theorem text_mention_empty_text
    (o : TextMentionTermination.t) (ignored : list Message) (m : Message)
    (rest : list Message) :
  TextMentionTermination._termination_text o = EmptyString ->
  TextMentionTermination._terminated o = false ->
  forallb (TextMentionTermination.skipped o) ignored = true ->
  TextMentionTermination.skipped o m = false ->
  TextMentionTermination.__call__ o (ignored ++ m :: rest)
  = (TextMentionTermination.with_terminated o true,
     Return (Some {| Stop.content := "Text '' mentioned";
                     Stop.source := "TextMentionTermination" |})).
Proof.
  intros Htext Ht Hskipped Hm.
  unfold TextMentionTermination.__call__. rewrite Ht.
  assert (Hf : for_return (TextMentionTermination.body o) (ignored ++ m :: rest)
               = Some {| Stop.content := "Text '' mentioned";
                         Stop.source := "TextMentionTermination" |}).
  { induction ignored as [|x xs IH]; cbn.
    - unfold TextMentionTermination.body. rewrite Hm, Htext, str_contains_empty.
      reflexivity.
    - cbn in Hskipped. apply andb_true_iff in Hskipped as [Hx Hxs].
      unfold TextMentionTermination.body at 1. rewrite Hx. now apply IH. }
  now rewrite Hf.
Qed.

(** ** Configuration and progress *)

Lemma to_config_reset (now : float) (c : condition) :
  _to_config (reset now c) = _to_config c.
Proof. destruct c; reflexivity. Qed.

(** The serialized parameters do not depend on what has happened to
    the object: after any operations [_to_config] gives what it gave
    before them. *)
Theorem to_config_ignores_progress (ops : list op) (c : condition) :
  _to_config (fst (run c ops)) = _to_config c.
Proof.
  rewrite <- (to_config_reset 0%float (fst (run c ops))).
  rewrite reset_run. apply to_config_reset.
Qed.

(** After a [reset] an instance behaves as a newly built one: whatever
    it has been through, the same operations give the same
    observations and the same object as on an instance constructed
    from the same arguments at the clock reading of the reset. *)
Theorem reset_replays
    (now0 now : float) (args : ctor) (c0 c1 : condition) (history ops : list op) :
  construct now0 args = Ok c0 ->
  construct now args = Ok c1 ->
  run (reset now (fst (run c0 history))) ops = run c1 ops.
Proof.
  intros H0 H1. rewrite reset_run.
  pose proof (reset_construct now0 now args c0 H0) as Hr.
  rewrite H1 in Hr. injection Hr as ->. reflexivity.
Qed.


End Protocol.

(** ** Serialization round trip *)

(** Every constructor call except [TextMentionTermination] with a
    [sources] list and [TimeoutTermination] (and
    [FunctionalTermination], which has no configuration) is rebuilt
    exactly by [_from_config] of [_to_config]. *)
Lemma roundtrip_rebuilds (now : float) (args : ctor) (c : condition) (cfg : config) :
  construct now args = Ok c ->
  (forall t s, args <> NewTextMention t (Some s)) ->
  (forall s, args <> NewTimeout s) ->
  _to_config c = Some cfg ->
  _from_config now cfg = Ok c.
Proof.
  intros Hc Hsrc Htime Hcfg.
  destruct args; cbn in Hc;
    try (injection Hc as <-; cbn in Hcfg; injection Hcfg as <-; reflexivity);
    try (injection Hc as <-; discriminate Hcfg).
  - destruct sources as [s|]; [exfalso; now apply (Hsrc text s)|].
    injection Hc as <-; cbn in Hcfg; injection Hcfg as <-; reflexivity.
  - destruct max_total_token, max_prompt_token, max_completion_token;
      cbn in Hc; try discriminate Hc;
      injection Hc as <-; cbn in Hcfg; injection Hcfg as <-; reflexivity.
Qed.

(** Serializing an object in any state it has reached and
    deserializing the result gives the object as [reset] would leave
    it: the configuration comes back, the progress does not.  This is
    for the classes whose round trip keeps every parameter as it is:
    a [TextMentionTermination] with a [sources] list, which loses the
    list, and a [TimeoutTermination], whose configuration class may
    change the type of the timeout, are left out. *)
Theorem deserialize_is_reset
    (str_float : float -> string) (now0 now : float) (args : ctor)
    (c0 : condition) (ops : list op) (cfg : config) :
  construct now0 args = Ok c0 ->
  (forall t s, args <> NewTextMention t (Some s)) ->
  (forall s, args <> NewTimeout s) ->
  _to_config (fst (run str_float c0 ops)) = Some cfg ->
  _from_config now cfg = Ok (reset now (fst (run str_float c0 ops))).
Proof.
  intros Hc Hsrc Htime Hcfg.
  rewrite <- (to_config_reset now), reset_run, to_config_reset in Hcfg.
  rewrite reset_run.
  apply (roundtrip_rebuilds now args); [|exact Hsrc|exact Htime|].
  - exact (reset_construct now0 now args c0 Hc).
  - now rewrite to_config_reset.
Qed.

(** C1, at the failing input.  [TextMentionTermination("DONE",
    sources=["agentA"])] does not fire on a message from "agentB"
    whose text is "DONE"; the object rebuilt from its serialized
    parameters has lost the [sources] allow-list and fires on the same
    message, so the round trip does not preserve behaviour. *)
Theorem text_mention_roundtrip_loses_sources (str_float : float -> string) (now : float) :
  let batch := [text_message "agentB" "DONE"] in
  exists p cfg q,
    construct now (NewTextMention "DONE" (Some ["agentA"])) = Ok p /\
    _to_config p = Some cfg /\
    _from_config now cfg = Ok q /\
    snd (call str_float now p batch) = Return None /\
    snd (call str_float now q batch) =
      Return (Some {| Stop.content := "Text 'DONE' mentioned";
                      Stop.source := "TextMentionTermination" |}).
Proof.
  intros batch.
  eexists _, _, _.
  split; [reflexivity|].
  split; [reflexivity|].
  split; [reflexivity|].
  split; reflexivity.
Qed.


(** ** The properties at concrete inputs *)

(** C3 as stated fails: a [MaxMessageTermination] with ceiling 0 is
    triggered right after [reset]; and a second [reset] of a
    [TimeoutTermination] at a later clock reading moves the start
    instant, so it does change the state. *)
Lemma reset_leaves_zero_ceiling_triggered :
  (exists c0,
     construct 0%float (NewMaxMessage 0 false) = Ok c0 /\
     terminated (reset 0%float c0) = true)
  /\ (exists c0,
        construct 0%float (NewTimeout 60%float) = Ok c0 /\
        reset 2%float (reset 1%float c0) <> reset 1%float c0).
Proof.
  split.
  - eexists. split; reflexivity.
  - eexists. split; [reflexivity|]. intros H.
    apply (f_equal (fun c => match c with
                             | CTimeout o =>
                                 PrimFloat.eqb (TimeoutTermination._start_time o) 1%float
                             | _ => false
                             end)) in H.
    vm_compute in H. discriminate H.
Qed.

(** C7 as stated fails: [set()] is called before the first evaluation,
    but a [reset()] follows it and clears the flag, and the first
    evaluation, here of the empty batch, returns nothing. *)
Lemma external_set_then_reset_is_silent :
  let fresh := CExternal ExternalTermination.__init__ in
  snd (step example_str_float
         (fst (run example_str_float fresh [ExternalSet; Reset 0%float]))
         (Evaluate 1%float []))
  = Return None.
Proof. reflexivity. Qed.

(** A stop-message detector that has fired raises on the next evaluation, a
    raising evaluation and a stray [set()] having come in between. *)
Lemma one_shot_until_reset_witness :
  let c := CStopMessage StopMessageTermination.__init__ in
  let c' := CStopMessage {| StopMessageTermination._terminated := true |} in
  let stop := {| Stop.content := "Stop message received";
                 Stop.source := "StopMessageTermination" |} in
  let ops := [Evaluate 1%float []; ExternalSet] in
  call example_str_float 0%float c [stop_message "user"] = (c', Return (Some stop))
  /\ existsb is_Reset ops = false
  /\ snd (step example_str_float (fst (run example_str_float c' ops))
            (Evaluate 2%float [stop_message "user"]))
     = Raise (TerminatedException "Termination condition has already been reached").
Proof.
  intros c c' stop ops.
  split; [reflexivity|]. split; [reflexivity|].
  apply (one_shot_until_reset example_str_float 0%float c c' [stop_message "user"] stop);
    reflexivity.
Defined.

(** A message counter with ceiling 3, reset after one message. *)
Lemma reset_restores_construction_witness :
  let args := NewMaxMessage 3 false in
  let c0 := CMaxMessage (MaxMessageTermination.__init__ 3 false) in
  let ops := [Evaluate 0%float [text_message "agent" "hello"]] in
  let c := fst (run example_str_float c0 ops) in
  construct 0%float args = Ok c0
  /\ construct 1%float args = Ok (reset 1%float c)
  /\ reset 1%float (reset 1%float c) = reset 1%float c
  /\ terminated (reset 1%float c) = terminated c0
  /\ (terminated (reset 1%float c) = true <-> nonpositive_ceiling args).
Proof.
  intros args c0 ops c.
  split; [reflexivity|].
  apply (reset_restores_construction example_str_float 0%float args c0 eq_refl ops 1%float).
Defined.

(** A token budget with a total ceiling only. *)
Lemma token_usage_configuration_error_witness :
  (Some 10 <> None \/ @None Z <> None \/ @None Z <> None)
  /\ exists c0,
       construct 0%float (NewTokenUsage (Some 10) None None) = Ok c0 /\
       forall ops : list op,
         existsb is_ValueError (snd (run example_str_float c0 ops)) = false.
Proof.
  assert (H : Some 10 <> None \/ @None Z <> None \/ @None Z <> None)
    by (left; discriminate).
  split; [exact H|].
  exact (proj2 (token_usage_configuration_error example_str_float 0%float
                  (Some 10) None None) H).
Defined.

(** One chat message against a ceiling of 3. *)
Lemma max_message_counts_witness :
  let o := MaxMessageTermination.__init__ 3 false in
  let messages := [text_message "agent" "hello"] in
  MaxMessageTermination.terminated o = false
  /\ fst (MaxMessageTermination.__call__ o messages) = MaxMessageTermination.with_count o 1
  /\ snd (MaxMessageTermination.__call__ o messages) = Return None.
Proof.
  intros o messages.
  split; [reflexivity|].
  destruct (max_message_counts example_str_float o messages eq_refl) as (H1 & H2 & _).
  split; [exact H1|]. apply H2. cbn. lia.
Defined.

(** The second turn of the prompt-ceiling example. *)
Lemma token_usage_independent_ceilings_witness :
  let o := {| TokenUsageTermination._max_total_token := None;
              TokenUsageTermination._max_prompt_token := Some 10;
              TokenUsageTermination._max_completion_token := None;
              TokenUsageTermination._total_token_count := 105;
              TokenUsageTermination._prompt_token_count := 5;
              TokenUsageTermination._completion_token_count := 100 |} in
  let messages := [usage_message "agent" 5 100] in
  TokenUsageTermination.terminated o = false
  /\ fst (TokenUsageTermination.__call__ o messages)
     = TokenUsageTermination.with_counts o 210 10 200
  /\ snd (TokenUsageTermination.__call__ o messages)
     = Return (Some (token_stop 210 10 200)).
Proof.
  intros o messages.
  split; [reflexivity|].
  destruct (token_usage_independent_ceilings example_str_float o messages eq_refl)
    as (H1 & H2 & _).
  split; [exact H1|]. apply H2.
  right; left. exists 10. split; [reflexivity|]. cbn. lia.
Defined.

(** [set()] after two resets and before a further [set()]; and [set()]
    followed by the evaluation that fires. *)
Lemma external_set_before_and_after_witness :
  let before := [Reset 0%float; ExternalSet; Reset 1%float] in
  let after := [ExternalSet] in
  let history := [ExternalSet; Evaluate 2%float []] in
  let fresh := CExternal ExternalTermination.__init__ in
  existsb is_Evaluate (before ++ after) = false
  /\ existsb is_Reset after = false
  /\ snd (step example_str_float
            (fst (run example_str_float fresh (before ++ ExternalSet :: after)))
            (Evaluate 3%float []))
     = Return (Some external_stop)
  /\ (terminated (fst (run example_str_float fresh history)) = true ->
      set (fst (run example_str_float fresh history))
      = Ok (fst (run example_str_float fresh history))).
Proof.
  intros before after history fresh.
  split; [reflexivity|]. split; [reflexivity|].
  destruct (external_set_before_and_after example_str_float before after history
              eq_refl eq_refl) as [H1 H2].
  split; [apply H1|exact H2].
Defined.

(** A text-mention detector with an allow-list: the first qualifying message
    is the third of five. *)
Lemma stateless_first_match_witness :
  let c := CTextMention (TextMentionTermination.__init__ "DONE" (Some ["agentA"])) in
  let pre := [text_message "agentB" "DONE"; text_message "agentA" "working"] in
  let m := text_message "agentA" "all DONE" in
  let post := [text_message "agentA" "DONE again"; stop_message "user"] in
  stateless_trigger c = true
  /\ forallb (fun x => negb (qualifies c x)) pre = true
  /\ qualifies c m = true
  /\ call example_str_float 0%float c (pre ++ m :: post)
     = call example_str_float 0%float c (pre ++ [m])
  /\ call example_str_float 0%float c (pre ++ m :: post)
     = call example_str_float 0%float c [m]
  /\ (terminated c = false ->
      is_fired (snd (call example_str_float 0%float c [m])) = true
      /\ call example_str_float 0%float c pre = (c, Return None)).
Proof.
  intros c pre m post.
  split; [reflexivity|]. split; [reflexivity|]. split; [reflexivity|].
  apply (stateless_first_match example_str_float 0%float c pre post m);
    reflexivity.
Defined.

(** A message counter with ceiling -1. *)
Lemma max_message_nonpositive_never_fires_witness :
  -1 <= 0
  /\ exists c0,
       construct 0%float (NewMaxMessage (-1) true) = Ok c0 /\
       terminated c0 = true /\
       forall ops : list op,
         let c := fst (run example_str_float c0 ops) in
         terminated c = true /\
         (forall now', terminated (reset now' c) = true) /\
         (forall now' batch,
            snd (call example_str_float now' c batch)
            = Raise (TerminatedException "Termination condition has already been reached")) /\
         existsb is_fired (snd (run example_str_float c0 ops)) = false.
Proof.
  assert (H : -1 <= 0) by lia.
  split; [exact H|].
  exact (max_message_nonpositive_never_fires example_str_float 0%float (-1) true H).
Defined.

(** A total ceiling of 10 crossed by the first of two messages. *)
Lemma token_usage_scans_whole_batch_witness :
  let o := {| TokenUsageTermination._max_total_token := Some 10;
              TokenUsageTermination._max_prompt_token := None;
              TokenUsageTermination._max_completion_token := None;
              TokenUsageTermination._total_token_count := 0;
              TokenUsageTermination._prompt_token_count := 0;
              TokenUsageTermination._completion_token_count := 0 |} in
  let pre := [usage_message "agent" 6 6] in
  let post := [usage_message "agent" 50 50] in
  TokenUsageTermination.terminated o = false
  /\ TokenUsageTermination.terminated (token_accumulated o pre) = true
  /\ fst (TokenUsageTermination.__call__ o (pre ++ post))
     = TokenUsageTermination.with_counts o 112 56 56
  /\ snd (TokenUsageTermination.__call__ o (pre ++ post))
     = Return (Some (token_stop 112 56 56)).
Proof.
  intros o pre post.
  split; [reflexivity|]. split; [reflexivity|].
  destruct (token_usage_scans_whole_batch o pre post eq_refl) as (H1 & H2 & _).
  split; [exact H1|]. apply H2; reflexivity.
Defined.

(** ** The further properties at concrete inputs *)


(** A handoff detector on a batch without a handoff. *)
Lemma call_none_leaves_object_witness :
  let c := CHandoff (HandoffTermination.__init__ "planner") in
  let batch := [text_message "agent" "hello"] in
  counter_based c = false
  /\ snd (call example_str_float 0%float c batch) = Return None
  /\ fst (call example_str_float 0%float c batch) = c.
Proof.
  intros c batch. split; [reflexivity|]. split; [reflexivity|].
  exact (proj1 (call_none_leaves_object example_str_float 0%float c batch
                  eq_refl eq_refl)).
Defined.

(** A source-match detector on the empty batch. *)
Lemma call_empty_batch_witness :
  let c := CSourceMatch (SourceMatchTermination.__init__ ["agentA"]) in
  stateless_trigger c || counter_based c = true
  /\ terminated c = false
  /\ call example_str_float 0%float c [] = (c, Return None).
Proof.
  intros c. split; [reflexivity|]. split; [reflexivity|].
  exact (call_empty_batch example_str_float 0%float c eq_refl eq_refl).
Defined.

(** A message counter with ceiling 3: one message, then two. *)
Lemma call_split_batch_witness :
  let c := CMaxMessage (MaxMessageTermination.__init__ 3 false) in
  let c' := CMaxMessage (MaxMessageTermination.with_count
                           (MaxMessageTermination.__init__ 3 false) 1) in
  let a := [text_message "agent" "one"] in
  let b := [text_message "agent" "two"; text_message "agent" "three"] in
  is_Functional c = false
  /\ call example_str_float 0%float c a = (c', Return None)
  /\ call example_str_float 1%float c' b = call example_str_float 1%float c (a ++ b).
Proof.
  intros c c' a b. split; [reflexivity|]. split; [reflexivity|].
  exact (call_split_batch example_str_float 0%float 1%float c c' a b eq_refl eq_refl).
Defined.

(** A function-call detector and a batch with the call in its second
    message. *)
Lemma stateless_fires_iff_qualifies_witness :
  let c := CFunctionCall (FunctionCallTermination.__init__ "finish") in
  let batch :=
    [text_message "agent" "working";
     {| source := "agent";
        kind := ToolCallExecutionEvent [{| name := "search" |}; {| name := "finish" |}];
        to_text := "results"; models_usage := None |}] in
  stateless_trigger c = true
  /\ terminated c = false
  /\ is_fired (snd (call example_str_float 0%float c batch)) = true.
Proof.
  intros c batch. split; [reflexivity|]. split; [reflexivity|].
  rewrite (stateless_fires_iff_qualifies example_str_float 0%float c batch eq_refl eq_refl).
  reflexivity.
Defined.

(** An external condition that was set. *)
Lemma stop_source_is_class_name_witness :
  let c := CExternal (ExternalTermination.set ExternalTermination.__init__) in
  let c' := CExternal {| ExternalTermination._terminated := true;
                         ExternalTermination._setted := true |} in
  call example_str_float 0%float c [] = (c', Return (Some external_stop))
  /\ Stop.source external_stop = "ExternalTermination".
Proof.
  intros c c'. split; [reflexivity|].
  exact (stop_source_is_class_name example_str_float 0%float c c' [] external_stop eq_refl).
Defined.

(** A stop-message detector fed two stop messages in a row. *)
Lemma at_most_one_stop_witness :
  let ops := [Evaluate 0%float [stop_message "user"];
              Evaluate 1%float [stop_message "user"]] in
  let c := CStopMessage StopMessageTermination.__init__ in
  existsb is_Reset ops = false
  /\ (count_fired (snd (run example_str_float c ops)) <= 1)%nat.
Proof.
  intros ops c. split; [reflexivity|].
  exact (at_most_one_stop example_str_float ops c eq_refl).
Defined.

(** Evaluations and a reset, and no [set()]. *)
Lemma external_silent_without_set_witness :
  let ops := [Evaluate 0%float [stop_message "user"]; Reset 1%float;
              Evaluate 2%float []] in
  let fresh := CExternal ExternalTermination.__init__ in
  existsb is_ExternalSet ops = false
  /\ fst (run example_str_float fresh ops) = fresh
  /\ count_fired (snd (run example_str_float fresh ops)) = 0%nat.
Proof.
  intros ops fresh. split; [reflexivity|].
  exact (external_silent_without_set example_str_float ops eq_refl).
Defined.

(** A token budget after two evaluations and a reset in between. *)
Lemma token_total_is_sum_witness :
  let c0 := CTokenUsage
              {| TokenUsageTermination._max_total_token := Some 1000;
                 TokenUsageTermination._max_prompt_token := None;
                 TokenUsageTermination._max_completion_token := None;
                 TokenUsageTermination._total_token_count := 0;
                 TokenUsageTermination._prompt_token_count := 0;
                 TokenUsageTermination._completion_token_count := 0 |} in
  let ops := [Evaluate 0%float [usage_message "agent" 5 100]; Reset 1%float;
              Evaluate 2%float [usage_message "agent" 7 3]] in
  construct 0%float (NewTokenUsage (Some 1000) None None) = Ok c0
  /\ exists o,
       fst (run example_str_float c0 ops) = CTokenUsage o /\
       TokenUsageTermination._total_token_count o
       = TokenUsageTermination._prompt_token_count o
         + TokenUsageTermination._completion_token_count o.
Proof.
  intros c0 ops. split; [reflexivity|].
  exact (token_total_is_sum example_str_float 0%float (Some 1000) None None c0 ops eq_refl).
Defined.

(** A total ceiling of 10 crossed by the first message, with one more
    message appended. *)
Lemma token_usage_more_messages_still_fire_witness :
  let o := {| TokenUsageTermination._max_total_token := Some 10;
              TokenUsageTermination._max_prompt_token := None;
              TokenUsageTermination._max_completion_token := None;
              TokenUsageTermination._total_token_count := 0;
              TokenUsageTermination._prompt_token_count := 0;
              TokenUsageTermination._completion_token_count := 0 |} in
  let pre := [usage_message "agent" 6 6] in
  let post := [usage_message "agent" 0 3; text_message "agent" "bye"] in
  nonnegative_usage post = true
  /\ is_fired (snd (TokenUsageTermination.__call__ o pre)) = true
  /\ is_fired (snd (TokenUsageTermination.__call__ o (pre ++ post))) = true.
Proof.
  intros o pre post. split; [reflexivity|]. split; [reflexivity|].
  exact (token_usage_more_messages_still_fire o pre post eq_refl eq_refl).
Defined.

(** Ceiling 4, agent events not counted: batches of one and two chat
    messages, then a batch of three. *)
Lemma max_message_fires_at_crossing_witness :
  let o := MaxMessageTermination.__init__ 4 false in
  let event := {| source := "agent"; kind := OtherAgentEvent;
                  to_text := "thinking"; models_usage := None |} in
  let batches := [[text_message "a" "1"; event];
                  [text_message "a" "2"; text_message "b" "3"]] in
  let last := [text_message "a" "4"; event; text_message "b" "5"; text_message "a" "6"] in
  0 + qualifying_total false batches < 4
  /\ 4 <= 0 + qualifying_total false batches + qualifying_count false last
  /\ snd (run example_str_float (CMaxMessage o)
            (map (Evaluate 0%float) (batches ++ [last])))
     = [Return None; Return None; Return (Some (max_message_stop 4 6))].
Proof.
  intros o event batches last.
  assert (H1 : 0 + qualifying_total false batches < 4) by (cbn; lia).
  assert (H2 : 4 <= 0 + qualifying_total false batches + qualifying_count false last)
    by (cbn; lia).
  split; [exact H1|]. split; [exact H2|].
  exact (max_message_fires_at_crossing example_str_float 0%float o batches last H1 H2).
Defined.

(** The source filter of the text-mention detector: "DONE" said by
    "agentB" when only "agentA" is listened to. *)
Lemma text_mention_outside_allow_list_witness :
  let o := TextMentionTermination.__init__ "DONE" (Some ["agentA"]) in
  let batch := [text_message "agentB" "DONE"] in
  TextMentionTermination._sources o = Some ["agentA"]
  /\ TextMentionTermination._terminated o = false
  /\ forallb (fun m => negb (str_in (source m) ["agentA"])) batch = true
  /\ TextMentionTermination.__call__ o batch = (o, Return None).
Proof.
  intros o batch. split; [reflexivity|]. split; [reflexivity|]. split; [reflexivity|].
  exact (proj1 (text_mention_outside_allow_list o ["agentA"] batch eq_refl eq_refl)
               eq_refl).
Defined.

(** The empty text with an allow-list: the message of "agentB" is
    skipped, that of "agentA" fires. *)
Lemma text_mention_empty_text_witness :
  let o := TextMentionTermination.__init__ EmptyString (Some ["agentA"]) in
  let ignored := [text_message "agentB" "hello"] in
  let m := text_message "agentA" "anything" in
  TextMentionTermination._termination_text o = EmptyString
  /\ TextMentionTermination._terminated o = false
  /\ forallb (TextMentionTermination.skipped o) ignored = true
  /\ TextMentionTermination.skipped o m = false
  /\ TextMentionTermination.__call__ o (ignored ++ [m])
     = (TextMentionTermination.with_terminated o true,
        Return (Some {| Stop.content := "Text '' mentioned";
                        Stop.source := "TextMentionTermination" |})).
Proof.
  intros o ignored m.
  split; [reflexivity|]. split; [reflexivity|]. split; [reflexivity|].
  split; [reflexivity|].
  exact (text_mention_empty_text o ignored m [] eq_refl eq_refl eq_refl eq_refl).
Defined.

(** A message counter that has counted two messages, serialized and
    rebuilt. *)
Lemma deserialize_is_reset_witness :
  let args := NewMaxMessage 3 true in
  let c0 := CMaxMessage (MaxMessageTermination.__init__ 3 true) in
  let ops := [Evaluate 0%float [text_message "a" "1"; text_message "b" "2"]] in
  let cfg := MaxMessageTerminationConfig
               {| MaxMessageTermination.max_messages := 3;
                  MaxMessageTermination.include_agent_event := true |} in
  construct 0%float args = Ok c0
  /\ (forall t s, args <> NewTextMention t (Some s))
  /\ (forall s, args <> NewTimeout s)
  /\ _to_config (fst (run example_str_float c0 ops)) = Some cfg
  /\ _from_config 1%float cfg
     = Ok (reset 1%float (fst (run example_str_float c0 ops))).
Proof.
  intros args c0 ops cfg.
  assert (H : forall t s, args <> NewTextMention t (Some s)) by (intros t s; discriminate).
  assert (H' : forall s, args <> NewTimeout s) by (intros s; discriminate).
  split; [reflexivity|]. split; [exact H|]. split; [exact H'|]. split; [reflexivity|].
  exact (deserialize_is_reset example_str_float 0%float 1%float args c0 ops cfg
           eq_refl H H' eq_refl).
Defined.

(** A text-message detector that has fired, reset, and compared with a
    new one. *)
Lemma reset_replays_witness :
  let args := NewTextMessage None in
  let c0 := CTextMessage (TextMessageTermination.__init__ None) in
  let history := [Evaluate 0%float [text_message "a" "hello"]] in
  let ops := [Evaluate 2%float []; Evaluate 3%float [text_message "b" "again"]] in
  construct 0%float args = Ok c0
  /\ construct 1%float args = Ok c0
  /\ run example_str_float (reset 1%float (fst (run example_str_float c0 history))) ops
     = run example_str_float c0 ops.
Proof.
  intros args c0 history ops. split; [reflexivity|]. split; [reflexivity|].
  exact (reset_replays example_str_float 0%float 1%float args c0 c0 history ops
           eq_refl eq_refl).
Defined.
